(** * The mobile.bg offer scraper (src/scraper/scraper.py)

    A shallow embedding of the crawl pipeline: the page fetcher with its
    bounded retry, the record extractor working on a BeautifulSoup tree,
    the result-page loop, the per-combination retry loop of a worker with
    its partial CSV file, the chunking of the shuffled combinations and the
    final merge.

    Python values are modelled as the program has them: a [str] is a
    sequence of Unicode code points, a [dict] is a finite map, exceptions
    are an error result, and the objects a function mutates (the data
    frame of a worker, the files, the log) live in an explicit world that
    survives a raised exception. *)

From Stdlib Require Import String Ascii List NArith Arith Lia Permutation.
From stdpp Require Import base option list gmap fin_maps.
Import ListNotations.

#[local] Set Warnings "-register-all".
Local Open Scope string_scope.
Local Open Scope list_scope.
Local Open Scope nat_scope.

(** ** Python strings *)

(** A Python [str] is a sequence of code points; slicing, [strip] and
    [split] count code points, not bytes. *)
Abbreviation char := N.
Abbreviation str := (list N).

(** Source literals are UTF-8 text; [py] decodes one into its code points. *)
Fixpoint utf8_decode (bs : list N) : str :=
  match bs with
  | [] => []
  | b0 :: r0 =>
      if (b0 <? 128)%N then b0 :: utf8_decode r0
      else if (b0 <? 224)%N then
        match r0 with
        | b1 :: r1 => ((b0 mod 32) * 64 + b1 mod 64)%N :: utf8_decode r1
        | _ => []
        end
      else if (b0 <? 240)%N then
        match r0 with
        | b1 :: b2 :: r2 =>
            ((b0 mod 16) * 4096 + (b1 mod 64) * 64 + b2 mod 64)%N :: utf8_decode r2
        | _ => []
        end
      else
        match r0 with
        | b1 :: b2 :: b3 :: r3 =>
            ((b0 mod 8) * 262144 + (b1 mod 64) * 4096 + (b2 mod 64) * 64 + b3 mod 64)%N
              :: utf8_decode r3
        | _ => []
        end
  end.

Definition py (s : string) : str :=
  utf8_decode (map N_of_ascii (list_ascii_of_string s)).
Arguments py : simpl never.

(** [str.isspace] on one character: the Unicode white space Python strips
    and that the regular expression class [\s] matches. *)
Definition isspace (c : char) : bool :=
  ((9 <=? c) && (c <=? 13) || (28 <=? c) && (c <=? 32)
   || (c =? 133) || (c =? 160) || (c =? 5760)
   || (8192 <=? c) && (c <=? 8202)
   || (c =? 8232) || (c =? 8233) || (c =? 8239) || (c =? 8287) || (c =? 12288))%N.

Fixpoint lstrip (s : str) : str :=
  match s with
  | c :: r => if isspace c then lstrip r else s
  | [] => []
  end.

Definition rstrip (s : str) : str := rev (lstrip (rev s)).

(** [s.strip()] *)
Definition strip (s : str) : str := rstrip (lstrip s).

(** [s.split(sep)] for a one-character separator: always at least one part. *)
Fixpoint split (sep : char) (s : str) : list str :=
  match s with
  | [] => [[]]
  | c :: r =>
      if (c =? sep)%N then [] :: split sep r
      else match split sep r with
           | p :: ps => (c :: p) :: ps
           | [] => [[c]]
           end
  end.

(** [sep.join(parts)] *)
Fixpoint join (sep : str) (parts : list str) : str :=
  match parts with
  | [] => []
  | [p] => p
  | p :: ps => p ++ sep ++ join sep ps
  end.

(** [s.startswith(prefix)] *)
Fixpoint startswith (s prefix : str) : bool :=
  match prefix, s with
  | [], _ => true
  | p :: ps, c :: r => (c =? p)%N && startswith r ps
  | _ :: _, [] => false
  end.

Definition str_eqb (a b : str) : bool := bool_decide (a = b).

(** [str(n)] for a natural number, in decimal. *)
Fixpoint digits_of_uint (d : Decimal.uint) : str :=
  match d with
  | Decimal.Nil => []
  | Decimal.D0 r => 48%N :: digits_of_uint r
  | Decimal.D1 r => 49%N :: digits_of_uint r
  | Decimal.D2 r => 50%N :: digits_of_uint r
  | Decimal.D3 r => 51%N :: digits_of_uint r
  | Decimal.D4 r => 52%N :: digits_of_uint r
  | Decimal.D5 r => 53%N :: digits_of_uint r
  | Decimal.D6 r => 54%N :: digits_of_uint r
  | Decimal.D7 r => 55%N :: digits_of_uint r
  | Decimal.D8 r => 56%N :: digits_of_uint r
  | Decimal.D9 r => 57%N :: digits_of_uint r
  end.

Definition str_of_nat (n : nat) : str := digits_of_uint (Nat.to_uint n).

(** ** Exceptions *)

(** The exception classes the program meets. [RequestException] and
    [WebDriverException] stand for the class with all its subclasses
    (a timeout, a missing element, a dead session). *)
Inductive exn :=
| AttributeError
| ValueError
| KeyError
| IndexError
| TypeError
| RequestException
| WebDriverException
| OSError
| OtherError.

#[global] Instance exn_eq_dec : EqDecision exn.
Proof. solve_decision. Defined.

Inductive result (A : Type) :=
| Ok (a : A)
| Raise (e : exn).
Arguments Ok {A} a.
Arguments Raise {A} e.

Definition bind {A B} (r : result A) (k : A -> result B) : result B :=
  match r with
  | Ok a => k a
  | Raise e => Raise e
  end.

Declare Scope result_scope.
Delimit Scope result_scope with result.
Notation "x <- r ;; k" := (bind r (fun x => k))
  (at level 100, r at next level, right associativity) : result_scope.

(** A method call or attribute access on a value that may be [None]:
    [None.find(...)] raises [AttributeError]. *)
Definition deref {A} (o : option A) : result A :=
  match o with
  | Some a => Ok a
  | None => Raise AttributeError
  end.

(** ** The parsed document (BeautifulSoup) *)

(** A parsed page is a forest of nodes: text, and tags with their
    attributes as written in the markup. *)
Inductive node :=
| NavigableString (s : str)
| Tag (nm : str) (ats : gmap str str) (cs : list node).

Abbreviation soup := (list node).

(** A tag as the program holds it: bs4 tags know the siblings that follow
    them in their parent, which is what [find_next_sibling] walks. *)
Record element := Element {
  name : str;
  attrs : gmap str str;
  contents : list node;
  next_siblings : list node
}.

(** [.text]: all the strings below a node, concatenated. *)
Fixpoint node_text (n : node) : str :=
  match n with
  | NavigableString s => s
  | Tag _ _ cs =>
      (fix forest_text (l : list node) : str :=
         match l with
         | [] => []
         | c :: r => node_text c ++ forest_text r
         end) cs
  end.

Fixpoint forest_text (l : list node) : str :=
  match l with
  | [] => []
  | c :: r => node_text c ++ forest_text r
  end.

Definition text (e : element) : str := forest_text (contents e).

(** The tags at and below a node, in document order. *)
Fixpoint tags_in (n : node) (after : list node) : list element :=
  match n with
  | NavigableString _ => []
  | Tag nm ats cs =>
      Element nm ats cs after ::
      (fix forest (l : list node) : list element :=
         match l with
         | [] => []
         | c :: r => tags_in c r ++ forest r
         end) cs
  end.

(** [.descendants], tags only. *)
Fixpoint descendants (l : list node) : list element :=
  match l with
  | [] => []
  | c :: r => tags_in c r ++ descendants r
  end.

(** The tags among a run of siblings, each with the siblings after it. *)
Fixpoint sibling_tags (l : list node) : list element :=
  match l with
  | [] => []
  | NavigableString _ :: r => sibling_tags r
  | Tag nm ats cs :: r => Element nm ats cs r :: sibling_tags r
  end.

(** [soup.find_all(...)] and [soup.find(...)] with a filter on tags. *)
Definition find_all (p : element -> bool) (l : list node) : list element :=
  List.filter p (descendants l).

Definition find (p : element -> bool) (l : list node) : option element :=
  head (find_all p l).

(** [tag.find_next_sibling(...)]: the first following sibling that is a
    tag and passes the filter; strings between tags are skipped. *)
Definition find_next_sibling (p : element -> bool) (e : element) : option element :=
  head (List.filter p (sibling_tags (next_siblings e))).

(** [re.findall(r"\S+", value)]: how the tree builder splits the value of
    a [class] attribute into its list of classes. *)
Fixpoint nonwhitespace_findall (s : str) : list str :=
  match s with
  | [] => []
  | c :: r =>
      if isspace c then nonwhitespace_findall r
      else match r with
           | [] => [[c]]
           | c' :: _ =>
               if isspace c' then [c] :: nonwhitespace_findall r
               else match nonwhitespace_findall r with
                    | t :: ts => (c :: t) :: ts
                    | [] => [[c]]
                    end
           end
  end.

(** A class is a run of characters that are not white space. *)
Definition is_class (t : str) : Prop :=
  t <> [] /\ Forall (fun c => isspace c = false) t.

(** [tag['class']] / [tag.get('class')]: a list of classes. *)
Definition get_class (e : element) : option (list str) :=
  nonwhitespace_findall <$> (attrs e !! py "class").

(** How bs4 matches [class_=q] for a string [q]: against each class of the
    tag, then against the classes joined by single spaces. A tag without
    a class attribute matches only the empty query. *)
Definition matches_class (q : str) (e : element) : bool :=
  match get_class e with
  | None => str_eqb q []
  | Some classes =>
      existsb (fun item => str_eqb item q) classes
      || str_eqb (join (py " ") classes) q
  end.

(** A single-valued attribute ([id=...]) is compared as a whole. *)
Definition matches_attr (k q : str) (e : element) : bool :=
  match attrs e !! k with
  | None => str_eqb q []
  | Some v => str_eqb v q
  end.

Definition by_name (n : str) (e : element) : bool := str_eqb (name e) n.

Definition by_name_class (n q : str) (e : element) : bool :=
  by_name n e && matches_class q e.

Definition by_name_id (n q : str) (e : element) : bool :=
  by_name n e && matches_attr (py "id") q e.

Definition any_tag (e : element) : bool := true.

(** [tag.has_attr(k)] and [tag[k]] ([KeyError] when absent). *)
Definition has_attr (k : str) (e : element) : bool :=
  bool_decide (is_Some (attrs e !! k)).

Definition get_item (k : str) (e : element) : result str :=
  match attrs e !! k with
  | Some v => Ok v
  | None => Raise KeyError
  end.

(** Building fixtures. *)
Definition tag (nm : string) (ats : list (string * string)) (cs : list node) : node :=
  Tag (py nm) (list_to_map (map (fun kv => (py (fst kv), py (snd kv))) ats)) cs.

Definition txt (s : string) : node := NavigableString (py s).

(** ** The schema *)

Definition columns : list str := map py [
  "Марка";
  "Модел";
  "Категория";
  "Дата на производство";
  "Тип двигател";
  "Скоростна кутия";
  "Кубатура [куб.см]";
  "Мощност";
  "Евростандарт";
  "Пробег [км]";
  "Пробег с едно зареждане (WLTP) [км]";
  "Капацитет на батерията [kWh]";
  "Цвят";
  "VIN номер";
  "Цена [лв./EUR]";
  "Безопасност";
  "Комфорт";
  "Други";
  "Екстериор";
  "Защита";
  "Интериор";
  "Специализирани";
  "Област [Извън страната]";
  "Населено място [Държава]";
  "Посещения";
  "Заглавие"
].

Definition english_columns : list str := map py [
  "Make";
  "Model";
  "Body type";
  "Production date";
  "Engine type";
  "Transmission";
  "Displacement [cc]";
  "Power";
  "Euro standard";
  "Mileage [km]";
  "WLTP mileage";
  "Battery capacity [kWh]";
  "Color";
  "VIN number";
  "Price [BGN/EUR]";
  "Safety features";
  "Comfort features";
  "Other features";
  "Exterior features";
  "Protection features";
  "Interior features";
  "Specialized features";
  "Region (Outside country)";
  "City (Country)";
  "Views";
  "Title"
].

(** ** Data frames and files *)

(** A cell of a frame: a string, Python's [None], or the [NaN] pandas puts
    where a row has no value for a column. *)
Inductive cell :=
| Str (s : str)
| PyNone
| NaN.

#[global] Instance cell_eq_dec : EqDecision cell.
Proof. solve_decision. Defined.

Record DataFrame := Frame {
  df_columns : list str;
  df_rows : list (list cell)
}.

(** [pd.DataFrame(columns=cols)] *)
Definition new_frame (cols : list str) : DataFrame := Frame cols [].

(** A row seen as a record: column label and cell, in column order. *)
Definition record_of (cols : list str) (row : list cell) : list (str * cell) :=
  combine cols row.


(** The dictionary [parsed_data]: a value is a string or [None]. *)
Abbreviation dict := (gmap str (option str)).

Definition cell_of (value : dict) (col : str) : cell :=
  match value !! col with
  | Some (Some s) => Str s
  | Some None => PyNone
  | None => NaN
  end.

(** [data.loc[len(data)] = value] for a dictionary: the rows of a frame are
    numbered from 0, so the label is new and pandas appends
    [Series(value, index=data.columns)], the dictionary read at the
    columns of the frame. A frame without columns refuses the row
    ([cannot set a frame with no defined columns], pandas 2); the case is
    never reached by the program, whose frames all have the 26 columns. *)
Definition loc_append (data : DataFrame) (value : dict) : result DataFrame :=
  match df_columns data with
  | [] => Raise ValueError
  | cols => Ok (Frame cols (df_rows data ++ [map (cell_of value) cols]))
  end.

(** What a CSV file holds, line by line. *)
Inductive csv_line :=
| Header (cols : list str)
| Row (cells : list cell).

#[global] Instance csv_line_eq_dec : EqDecision csv_line.
Proof. solve_decision. Defined.

Abbreviation filesystem := (gmap str (list csv_line)).

(** [os.path.exists(path)] *)
Definition path_exists (fs : filesystem) (path : str) : bool :=
  bool_decide (is_Some (fs !! path)).

(** [data.to_csv(path, index=False, mode='a', header=header)] *)
Definition to_csv (data : DataFrame) (path : str) (header : bool) (fs : filesystem)
  : filesystem :=
  <[path := default [] (fs !! path)
            ++ (if header then [Header (df_columns data)] else [])
            ++ map Row (df_rows data)]> fs.

(** ** The world of a worker *)

Inductive log_record :=
| Info_getting_page (url : str)
| Error_request_exception (attempt : nat)
| Info_scraping_offer (offer_url : str)
| Warning_no_region_city
| Warning_no_main_car_details
| Info_scraping (models : list (str * str))
| Info_getting_offers (make model : str)
| Info_after_search (make model current_url : str)
| Error_exception_in_process (pid : nat) (e : exn)
| Warning_retrying (make model : str) (attempt : nat).

(** The answer of [requests.get] with the body already parsed by
    [BeautifulSoup(content, 'html.parser')], or the exception it throws. *)
Inductive response :=
| Response (content : soup)
| Throws (e : exn).

(** The outcome of driving the browser to the offers of one model:
    the URL the session ends on, or the exception the driver throws. *)
Inductive navigation :=
| Landed (current_url : str)
| Crashed (e : exn).

(** What lies outside the program: the network, the browser session, the
    process id and the disk. The network and the browser are asked with the
    number of calls made so far, so that a retry may see another answer.
    [session_start] is [instantiate_driver], the first [get] and
    [handle_cookies]; [session_quit] is [chrome_driver.quit()].
    [can_append path] tells whether [open(path, 'a')] goes through: the
    directory is there and the file may be written. *)
Record environment := Env {
  requests_get : nat -> str -> response;
  browse : nat -> str -> str -> navigation;
  session_start : result unit;
  getpid : nat;
  can_append : str -> bool;
  session_quit : result unit
}.

(** The state of a worker. [files] are the data files on the disk by
    their path; the log file [./logs/<date>.log], to which the
    [FileHandler] appends every record, is kept apart: [log] is what the
    program has appended to it, in order. *)
Record world := World {
  requests_made : nat;
  navigations : nat;
  frame : DataFrame;
  files : filesystem;
  log : list log_record
}.

Definition set_frame (d : DataFrame) (w : world) : world :=
  World (requests_made w) (navigations w) d (files w) (log w).

Definition set_files (fs : filesystem) (w : world) : world :=
  World (requests_made w) (navigations w) (frame w) fs (log w).

Definition add_log (r : log_record) (w : world) : world :=
  World (requests_made w) (navigations w) (frame w) (files w) (log w ++ [r]).

Definition tick_request (w : world) : world :=
  World (S (requests_made w)) (navigations w) (frame w) (files w) (log w).

Definition tick_navigation (w : world) : world :=
  World (requests_made w) (S (navigations w)) (frame w) (files w) (log w).

(** Computations that read and change the world and may raise; the world
    reached when an exception is raised is kept. *)
Definition M (A : Type) : Type := world -> result A * world.

Definition ret {A} (a : A) : M A := fun w => (Ok a, w).

Definition raise {A} (e : exn) : M A := fun w => (Raise e, w).

Definition lift {A} (r : result A) : M A := fun w => (r, w).

Definition mbind {A B} (m : M A) (k : A -> M B) : M B :=
  fun w =>
    match m w with
    | (Ok a, w') => k a w'
    | (Raise e, w') => (Raise e, w')
    end.

Definition logging (r : log_record) : M unit := fun w => (Ok tt, add_log r w).

Declare Scope M_scope.
Delimit Scope M_scope with M.
Notation "x <- m ;; k" := (mbind m (fun x => k))
  (at level 100, m at next level, right associativity) : M_scope.
Notation "m ;;; k" := (mbind m (fun _ => k))
  (at level 100, right associativity) : M_scope.

(** [range(n)] *)
Definition range (n : nat) : list nat := seq 0 n.

(** The log records written below the retry loop of the worker. *)
Definition inner_record (r : log_record) : bool :=
  match r with
  | Error_exception_in_process _ _ | Warning_retrying _ _ _ => false
  | _ => true
  end.

(** A computation keeps a relation between the world before and after it. *)
Definition keeps (P : world -> world -> Prop) {A} (m : M A) : Prop :=
  forall w r w', m w = (r, w') -> P w w'.

(** The frame, the files and the count of navigations are the same. *)
Definition same_data (w w' : world) : Prop :=
  frame w' = frame w /\ files w' = files w /\ navigations w' = navigations w.

(** Only the log has grown. *)
Definition only_logged (w w' : world) : Prop :=
  same_data w w' /\ requests_made w' = requests_made w.

Definition is_retry (r : log_record) : bool :=
  match r with
  | Warning_retrying _ _ _ => true
  | _ => false
  end.

(** The number of [Retrying ...] warnings in the log: one is written for
    each attempt that ended in a [WebDriverException]. *)
Definition retries_logged (w : world) : nat := length (List.filter is_retry (log w)).

(** What an attempt leaves alone, but for the navigation that starts it. *)
Definition outer (w w' : world) : Prop :=
  navigations w' = navigations w
  /\ files w' = files w
  /\ retries_logged w' = retries_logged w.

(** The offer URLs the program asked for, in order: one
    [Info_scraping_offer] record is written per call of [scrape_offer_data]. *)
Definition offers_scraped (w : world) : list str :=
  omap (fun r => match r with Info_scraping_offer url => Some url | _ => None end) (log w).

(** The frame keeps its columns and its rows and gets rows at its end;
    the log keeps its records and gets records at its end. *)
Definition grows (w w' : world) : Prop :=
  df_columns (frame w') = df_columns (frame w)
  /\ (exists rows, df_rows (frame w') = df_rows (frame w) ++ rows)
  /\ (exists records, log w' = log w ++ records).

Definition is_header (line : csv_line) : bool :=
  match line with
  | Header _ => true
  | Row _ => false
  end.

(** The main details are absent: there is no page, or the page has no
    [ul] of class [dilarData]. *)
Definition main_details_absent (offer_soup : option soup) : Prop :=
  match offer_soup with
  | None => True
  | Some page => find (by_name_class (py "ul") (py "dilarData")) page = None
  end.

Section Scraper.

Variable E : environment.

(** ** [get_page] *)

(** One [requests.get] with the parse of its body. *)
Definition fetch (url : str) : M (option soup) :=
  fun w =>
    match requests_get E (requests_made w) (py "https:" ++ url) with
    | Response content => (Ok (Some content), tick_request w)
    | Throws e => (Raise e, tick_request w)
    end.

(** The body of [for i in range(3)]: log, fetch and return; a
    [RequestException] is logged and the loop goes on; when the loop runs
    out the function falls off its end and returns [None]. *)
Fixpoint get_page_loop (attempts : list nat) (url : str) : M (option soup) :=
  match attempts with
  | [] => ret None
  | i :: rest =>
      fun w =>
        match fetch url (add_log (Info_getting_page url) w) with
        | (Ok page, w') => (Ok page, w')
        | (Raise e, w') =>
            if decide (e = RequestException)
            then get_page_loop rest url (add_log (Error_request_exception (i + 1)) w')
            else (Raise e, w')
        end
  end.

Definition get_page (url : str) : M (option soup) := get_page_loop (range 3) url.

(** The answer the network gives to the [k]-th request made from [w] on. *)
Definition answer (url : str) (w : world) (k : nat) : response :=
  requests_get E (requests_made w + k) (py "https:" ++ url).

(** ** [parse_main_car_details] *)

(** [offer_soup.find('ul', class_='dilarData').find_all('li')] *)
Definition main_car_details_html_list (offer_soup : option soup) : result (list element) :=
  (page <- deref offer_soup ;;
   ul <- deref (find (by_name_class (py "ul") (py "dilarData")) page) ;;
   Ok (find_all (by_name (py "li")) (contents ul)))%result.

Definition is_data (index : nat) (el : element) : bool := negb (index mod 2 =? 0).

Definition enumerate {A} (l : list A) : list (nat * A) := combine (seq 0 (length l)) l.

(** [dict(zip(ks, vs))]: a later pair replaces an earlier one with the same key. *)
Definition dict_of_zip (ks vs : list str) : dict :=
  fold_left (fun d kv => <[fst kv := Some (snd kv)]> d) (combine ks vs) ∅.

(** [target.update(d)] *)
Definition update (target d : dict) : dict := d ∪ target.

Definition parse_main_car_details (offer_soup : option soup) (target : dict) : M dict :=
  match main_car_details_html_list offer_soup with
  | Raise AttributeError =>
      (logging Warning_no_main_car_details ;;; raise ValueError)%M
  | Raise e => raise e
  | Ok html_list =>
      let main_data := enumerate html_list in
      let available_columns :=
        map (fun ie => text (snd ie))
            (List.filter (fun ie => negb (is_data (fst ie) (snd ie))) main_data) in
      let available_data :=
        map (fun ie => text (snd ie))
            (List.filter (fun ie => is_data (fst ie) (snd ie)) main_data) in
      ret (update target (dict_of_zip available_columns available_data))
  end.

(** ** [parse_additional_car_features] *)

(** The [while] loop: [feature_div] runs along the chain of
    [find_next_sibling()], that is over the tags that follow it, and stops
    at the end of the siblings or at a [label]. *)
Fixpoint feature_walk (chain : list element) : list str :=
  match chain with
  | [] => []
  | feature_div :: rest =>
      if str_eqb (name feature_div) (py "label") then []
      else strip (drop 2 (text feature_div)) :: feature_walk rest
  end.

Definition feature_list_from (feature_div : option element) : list str :=
  match feature_div with
  | None => []
  | Some d => feature_walk (d :: sibling_tags (next_siblings d))
  end.

(** The body of [for label in ...]. *)
Definition parse_feature_label (label : element) (target : dict) : result dict :=
  (next_sibling <- deref (find_next_sibling any_tag label) ;;
   let feature_div :=
     if negb (str_eqb (name next_sibling) (py "div"))
     then find (by_name (py "div")) (contents next_sibling)
     else Some next_sibling in
   let feature_div :=
     match feature_div with
     | None => find_next_sibling (by_name (py "div")) label
     | Some d => Some d
     end in
   Ok (<[text label := Some (join (py ", ") (feature_list_from feature_div))]> target))%result.

Fixpoint parse_feature_labels (labels : list element) (target : dict) : result dict :=
  match labels with
  | [] => Ok target
  | label :: rest =>
      (target' <- parse_feature_label label target ;; parse_feature_labels rest target')%result
  end.

Definition parse_additional_car_features (offer_soup : soup) (target : dict) : result dict :=
  parse_feature_labels (find_all (by_name_class (py "label") (py "extra_cat")) offer_soup) target.

(** ** [scrape_offer_data] *)

(** [region_city_data[i].strip() if len(region_city_data) > i else None] *)
Definition part (region_city_data : list str) (i : nat) : option str :=
  strip <$> nth_error region_city_data i.

(** [for missing_column in [col for col in columns if col not in parsed_data]:
       parsed_data[missing_column] = None] *)
Definition fill_missing (parsed_data : dict) : dict :=
  fold_left (fun d missing_column => <[missing_column := None]> d)
            (List.filter (fun col => bool_decide (parsed_data !! col = None)) columns)
            parsed_data.

(** The region and city node: split at the commas, or warn and go on
    with no parts when the node is absent. *)
Definition region_city (page : soup) : M (list str) :=
  match find (by_name_class (py "div") (py "adress")) page with
  | Some adress => ret (split 44%N (text adress))
  | None => (logging Warning_no_region_city ;;; ret [])%M
  end.

(** [data.loc[len(data)] = parsed_data] on the frame of the worker. *)
Definition append_row (parsed_data : dict) : M unit :=
  fun w =>
    match loc_append (frame w) parsed_data with
    | Ok data => (Ok tt, set_frame data w)
    | Raise e => (Raise e, w)
    end.

(** What follows the main details, on a page that is there. *)
Definition finish_offer (make model : str) (offer_soup : option soup) (parsed_data : dict)
  : M unit :=
  (page <- lift (deref offer_soup) ;;
   h1 <- lift (deref (find (by_name (py "h1")) page)) ;;
   let parsed_data := <[py "Заглавие" := Some (strip (text h1))]> parsed_data in
   let parsed_data := <[py "Марка" := Some (strip make)]> parsed_data in
   let parsed_data := <[py "Модел" := Some (strip model)]> parsed_data in
   price <- lift (deref (find (by_name_id (py "span") (py "details_price")) page)) ;;
   let parsed_data := <[py "Цена [лв./EUR]" := Some (strip (text price))]> parsed_data in
   region_city_data <- region_city page ;;
   let parsed_data := <[py "Област [Извън страната]" := part region_city_data 0]> parsed_data in
   let parsed_data := <[py "Населено място [Държава]" := part region_city_data 1]> parsed_data in
   views <- lift (deref (find (by_name_class (py "span") (py "advact")) page)) ;;
   let parsed_data := <[py "Посещения" := Some (text views)]> parsed_data in
   parsed_data <- lift (parse_additional_car_features page parsed_data) ;;
   append_row (fill_missing parsed_data))%M.

Definition scrape_offer_data (make model offer_url : str) : M unit :=
  fun w =>
    match (logging (Info_scraping_offer offer_url) ;;; get_page offer_url)%M w with
    | (Raise e, w1) => (Raise e, w1)
    | (Ok offer_soup, w1) =>
        match parse_main_car_details offer_soup ∅ w1 with
        | (Raise ValueError, w2) => (Ok tt, w2)
        | (Raise e, w2) => (Raise e, w2)
        | (Ok parsed_data, w2) => finish_offer make model offer_soup parsed_data w2
        end
    end.

(** ** [has_next_page] and [is_offer_link] *)

Definition has_next_page (current_page_element : option element) : result bool :=
  (current <- deref current_page_element ;;
   Ok (bool_decide (is_Some (find_next_sibling any_tag current))
       && bool_decide (is_Some (find_next_sibling
                                  (by_name_class (py "a") (py "saveSlink ")) current))))%result.

Definition is_offer_link (tag : element) : bool :=
  has_attr (py "href") tag
  && match attrs tag !! py "href" with
     | Some href => startswith href (py "//www.mobile.bg/pcgi/mobile.cgi?act=4&")
     | None => false
     end
  && has_attr (py "class") tag
  && match get_class tag with
     | Some classes => existsb (fun c => str_eqb c (py "photoLink")) classes
     | None => false
     end.

(** ** [scrape_model] *)

(** [go_to_model_offers] drives the browser only; what the program sees of
    it is the exception it throws or the URL the session is on afterwards,
    which [scrape_model] reads as [chrome_driver.current_url]. *)
Definition go_to_model_offers (make model : str) : M str :=
  fun w =>
    match browse E (navigations w) make model with
    | Landed current_url =>
        (Ok current_url, add_log (Info_after_search make model current_url) (tick_navigation w))
    | Crashed e => (Raise e, tick_navigation w)
    end.

(** [list(map(lambda tag: tag['href'], tags))] *)
Fixpoint hrefs (tags : list element) : result (list str) :=
  match tags with
  | [] => Ok []
  | t :: rest =>
      (href <- get_item (py "href") t ;; more <- hrefs rest ;; Ok (href :: more))%result
  end.

(** [for link in offer_links: scrape_offer_data(make, model, link, process_df)] *)
Fixpoint scrape_offers (make model : str) (offer_links : list str) : M unit :=
  match offer_links with
  | [] => ret tt
  | link :: rest =>
      (scrape_offer_data make model link ;;; scrape_offers make model rest)%M
  end.

(** [current_page_element.find_next_sibling()['href']] *)
Definition next_page_url (current_page_element : option element) : result str :=
  (current <- deref current_page_element ;;
   next <- deref (find_next_sibling any_tag current) ;;
   get_item (py "href") next)%result.

(** The [while True] loop over the result pages. The fuel bounds the
    number of pages read; [None] is a loop that has not ended within it. *)
Fixpoint pages_loop (fuel : nat) (make model : str) (current_page_soup : option soup)
  (w : world) : option (result unit * world) :=
  match fuel with
  | 0 => None
  | S fuel' =>
      match (page <- lift (deref current_page_soup) ;;
             offer_links <- lift (hrefs (find_all is_offer_link page)) ;;
             scrape_offers make model offer_links ;;;
             let current_page_element :=
               find (by_name_class (py "a") (py "saveSlink selected")) page in
             more <- lift (has_next_page current_page_element) ;;
             if negb more then ret None
             else (url <- lift (next_page_url current_page_element) ;;
                   next_soup <- get_page url ;;
                   ret (Some next_soup)))%M w with
      | (Raise e, w') => Some (Raise e, w')
      | (Ok None, w') => Some (Ok tt, w')
      | (Ok (Some next_soup), w') => pages_loop fuel' make model next_soup w'
      end
  end.

Definition scrape_model (fuel : nat) (make model : str) (w : world)
  : option (result unit * world) :=
  match (current_url <- go_to_model_offers make model ;;
         logging (Info_getting_offers make model) ;;;
         get_page (drop 6 current_url))%M w with
  | (Raise e, w') => Some (Raise e, w')
  | (Ok current_page_soup, w') => pages_loop fuel make model current_page_soup w'
  end.

(** One round of the loop of [scrape_model] that is the last one: the
    offers of the page are scraped and the current-page link is looked up. *)
Definition single_page (make model : str) (current_page_soup : option soup) : M unit :=
  (page <- lift (deref current_page_soup) ;;
   offer_links <- lift (hrefs (find_all is_offer_link page)) ;;
   scrape_offers make model offer_links ;;;
   lift (deref (find (by_name_class (py "a") (py "saveSlink selected")) page)) ;;;
   ret tt)%M.

(** [scrape_model] with the loop replaced by its single round. *)
Definition scrape_first_page (make model : str) : M unit :=
  (current_url <- go_to_model_offers make model ;;
   logging (Info_getting_offers make model) ;;;
   current_page_soup <- get_page (drop 6 current_url) ;;
   single_page make model current_page_soup)%M.

(** ** [scrape_worker] *)

Definition temp_partial : str :=
  py "./temp/partial-" ++ str_of_nat (getpid E) ++ py ".csv".

Definition output_partial : str :=
  py "./output/partial-" ++ str_of_nat (getpid E) ++ py ".csv".

(** The two statements after a scrape that went through, when the write
    goes through too: the frame is appended to the partial file of the
    process and a new frame takes its place. *)
Definition flush (w : world) : world :=
  let header := negb (path_exists (files w) output_partial) in
  set_frame (new_frame columns)
            (set_files (to_csv (frame w) temp_partial header (files w)) w).

(** [process_df.to_csv(...)] opens the partial file for appending before it
    writes: when that fails it raises [OSError], nothing is written and the
    frame stays as it is. *)
Definition try_flush : M unit :=
  fun w =>
    if can_append E temp_partial then (Ok tt, flush w) else (Raise OSError, w).

(** [for i in range(3): try: ... except WebDriverException: ... else: break] *)
Fixpoint retry_loop (fuel : nat) (attempts : list nat) (make model : str) (w : world)
  : option (result unit * world) :=
  match attempts with
  | [] => Some (Ok tt, w)
  | i :: rest =>
      match scrape_model fuel make model w with
      | None => None
      | Some (Ok _, w') => Some (try_flush w')
      | Some (Raise e, w') =>
          if decide (e = WebDriverException)
          then retry_loop fuel rest make model
                 (add_log (Warning_retrying make model (i + 1))
                    (add_log (Error_exception_in_process (getpid E) e) w'))
          else Some (Raise e, w')
      end
  end.

Definition scrape_combination (fuel : nat) (make model : str) (w : world)
  : option (result unit * world) :=
  retry_loop fuel (range 3) make model w.

(** [for (make, model) in models] *)
Fixpoint scrape_combinations (fuel : nat) (models : list (str * str)) (w : world)
  : option (result unit * world) :=
  match models with
  | [] => Some (Ok tt, w)
  | (make, model) :: rest =>
      match scrape_combination fuel make model w with
      | None => None
      | Some (Ok _, w') => scrape_combinations fuel rest w'
      | Some (Raise e, w') => Some (Raise e, w')
      end
  end.

Definition scrape_worker (fuel : nat) (models : list (str * str)) (w : world)
  : option (result unit * world) :=
  let w := set_frame (new_frame columns) (add_log (Info_scraping models) w) in
  match session_start E with
  | Raise e => Some (Raise e, w)
  | Ok _ =>
      match scrape_combinations fuel models w with
      | Some (Ok _, w') => Some (session_quit E, w')
      | ended => ended
      end
  end.

(** [driver_failures fuel make model i w n w']: from the world [w], [n]
    calls of [scrape_model] in a row, numbered from [i], each ended in a
    [WebDriverException] and were each followed by the two records of the
    handler; [w'] is the world after the last of them. *)
Inductive driver_failures (fuel : nat) (make model : str)
  : nat -> world -> nat -> world -> Prop :=
| failures_none (i : nat) (w : world) : driver_failures fuel make model i w 0 w
| failures_more (i : nat) (w w1 : world) (n : nat) (w' : world) :
    scrape_model fuel make model w = Some (Raise WebDriverException, w1) ->
    driver_failures fuel make model (S i)
      (add_log (Warning_retrying make model (i + 1))
         (add_log (Error_exception_in_process (getpid E) WebDriverException) w1))
      n w' ->
    driver_failures fuel make model i w (S n) w'.

End Scraper.

(** ** [main]: shuffling and chunking the combinations *)

Definition NUM_PROCESSES : nat := 8.

Section Distribution.

Context {A : Type}.

(** The random source: [random i] is the number drawn in the round of
    [random.shuffle] that places position [i]. *)
Variable random : nat -> nat.



(** [range(start, stop, step)] for a step that is not negative. *)
Definition range3 (start stop step : nat) : result (list nat) :=
  if step =? 0 then Raise ValueError
  else Ok (map (fun k => start + k * step) (seq 0 ((stop - start + step - 1) / step))).

(** [l[i:j]] *)
Definition slice (l : list A) (i j : nat) : list A := take (j - i) (drop i l).

Definition chunk_size_of (n : nat) : nat := n / (NUM_PROCESSES * 10).

(** [[all_models[i:i + chunk_size] for i in range(0, len(all_models), chunk_size)]] *)
Definition model_subsets (all_models : list A) : result (list (list A)) :=
  let chunk_size := chunk_size_of (length all_models) in
  (starts <- range3 0 (length all_models) chunk_size ;;
   Ok (map (fun i => slice all_models i (i + chunk_size)) starts))%result.


End Distribution.

(** ** [main]: the merge *)

(** [final_df.columns = labels] *)
Definition set_columns (data : DataFrame) (labels : list str) : result DataFrame :=
  if length labels =? length (df_columns data)
  then Ok (Frame labels (df_rows data))
  else Raise ValueError.

(** A Python value that can be handed to [remove]. *)
Inductive value :=
| VStr (s : str)
| VList (items : list value).

Fixpoint value_eqb (a b : value) : bool :=
  match a, b with
  | VStr s, VStr t => str_eqb s t
  | VList l, VList m =>
      (fix all2 (l m : list value) : bool :=
         match l, m with
         | [], [] => true
         | x :: l', y :: m' => value_eqb x y && all2 l' m'
         | _, _ => false
         end) l m
  | _, _ => false
  end.

(** [l.remove(x)] on a Python list: the first item equal to [x] goes, and
    [ValueError] is raised when there is none. *)
Fixpoint list_remove (l : list value) (x : value) : result (list value) :=
  match l with
  | [] => Raise ValueError
  | y :: rest =>
      if value_eqb y x then Ok rest
      else (rest' <- list_remove rest x ;; Ok (y :: rest'))%result
  end.

(** The two kinds of sequence of labels at hand: a Python list and a
    pandas [Index], which is what [final_df.columns] and its [copy()] are. *)
Inductive labels :=
| PyList (items : list value)
| Index (names : list str).

(** [receiver.remove(x)]: a list has the method; an [Index] has no
    attribute [remove], and looking it up raises [AttributeError] before
    the argument is looked at. *)
Definition remove (receiver : labels) (x : value) : result labels :=
  match receiver with
  | PyList items => (items' <- list_remove items x ;; Ok (PyList items'))%result
  | Index _ => Raise AttributeError
  end.

(** The labels as [drop_duplicates] reads them. *)
Definition names_of (l : labels) : list str :=
  match l with
  | Index names => names
  | PyList items => omap (fun v => match v with VStr s => Some s | VList _ => None end) items
  end.

(** The key of a row for [drop_duplicates(subset=...)]: its cells at the
    columns of the subset. *)
Definition subset_key (cols subset : list str) (row : list cell) : list cell :=
  map snd (List.filter (fun kv => bool_decide (fst kv ∈ subset)) (combine cols row)).

Fixpoint keep_first (key : list cell -> list cell) (seen : list (list cell))
  (rows : list (list cell)) : list (list cell) :=
  match rows with
  | [] => []
  | row :: rest =>
      if bool_decide (key row ∈ seen) then keep_first key seen rest
      else row :: keep_first key (key row :: seen) rest
  end.

(** [data.drop_duplicates(subset=subset)]: the first row of each key stays;
    a label that is not a column is a [KeyError]. *)
Definition drop_duplicates (subset : list str) (data : DataFrame) : result DataFrame :=
  if forallb (fun c => bool_decide (c ∈ df_columns data)) subset
  then Ok (Frame (df_columns data)
                 (keep_first (subset_key (df_columns data) subset) [] (df_rows data)))
  else Raise KeyError.

(** Lines 294 to 298 of [main], on the frame read back from the output file. *)
Definition merge_dedup (final_df : DataFrame) : result DataFrame :=
  (final_df <- set_columns final_df english_columns ;;
   let duplication_identification_cols := Index (df_columns final_df) in
   duplication_identification_cols <-
     remove duplication_identification_cols (VList [VStr (py "Model"); VStr (py "Views")]) ;;
   drop_duplicates (names_of duplication_identification_cols) final_df)%result.

(** The subset the call to [remove] is after: every column but [Model]
    and [Views]. *)
Definition intended_identity_columns : list str :=
  List.filter (fun c => negb (str_eqb c (py "Model") || str_eqb c (py "Views"))) english_columns.

(** ** Fixtures *)

Module Fixture.

Definition li (s : string) : node := tag "li" [] [txt s].

(** A complete offer page; [Състояние] is a label the schema does not have. *)
Definition offer_page : soup :=
  [tag "html" [] [
     tag "h1" [] [txt " Audi A4 2.0 TDI "];
     tag "span" [("id", "details_price")] [txt " 10 000 лв. "];
     tag "div" [("class", "adress")] [txt "обл. София, гр. София"];
     tag "span" [("class", "advact")] [txt "123"];
     tag "ul" [("class", "dilarData")]
       [li "Мощност"; li "150 к.с."; li "Цвят"; li "Черен";
        li "Състояние"; li "Употребяван"];
     tag "div" [] [
       tag "label" [("class", "extra_cat")] [txt "Безопасност"];
       tag "div" [] [txt "• ABS"]; txt " "; tag "div" [] [txt "• ESP"];
       tag "label" [("class", "extra_cat")] [txt "Комфорт"];
       tag "div" [] [txt "• Климатик"]]]].

(** An offer page without the list of main details. *)
Definition bare_page : soup :=
  [tag "html" [] [
     tag "h1" [] [txt "Audi A4"];
     tag "span" [("id", "details_price")] [txt "10 000 лв."];
     tag "span" [("class", "advact")] [txt "7"]]].

Definition offer_url (n : string) : str :=
  py "//www.mobile.bg/pcgi/mobile.cgi?act=4&adv=" ++ py n.

Definition offer_link (n : string) : node :=
  tag "a" [("class", "photoLink");
           ("href", String.append "//www.mobile.bg/pcgi/mobile.cgi?act=4&adv=" n)] [].

Definition page_link (selected : bool) (n : string) : node :=
  tag "a" [("class", if selected then "saveSlink selected" else "saveSlink ");
           ("href", String.append "//www.mobile.bg/results/p" n)] [txt n].

(** Three result pages of one make and model: two offers, one, one. *)
Definition results_page (n : nat) : soup :=
  match n with
  | 1 => [tag "html" [] [
            offer_link "1"; offer_link "2";
            tag "span" [("class", "pageNumbersSelect")]
              [page_link true "1"; txt " "; page_link false "2"; txt " "; page_link false "3"]]]
  | 2 => [tag "html" [] [
            offer_link "3";
            tag "span" [("class", "pageNumbersSelect")]
              [page_link false "1"; txt " "; page_link true "2"; txt " "; page_link false "3"]]]
  | _ => [tag "html" [] [
            offer_link "4";
            tag "span" [("class", "pageNumbersSelect")]
              [page_link false "1"; txt " "; page_link false "2"; txt " "; page_link true "3"]]]
  end.

(** The site: every request is answered, by the page of its URL. *)
Definition site (url : str) : response :=
  if str_eqb url (py "https://www.mobile.bg/results/p1") then Response (results_page 1)
  else if str_eqb url (py "https://www.mobile.bg/results/p2") then Response (results_page 2)
  else if str_eqb url (py "https://www.mobile.bg/results/p3") then Response (results_page 3)
  else Response offer_page.

Definition three_pages : environment :=
  Env (fun _ url => site url)
      (fun _ _ _ => Landed (py "https://www.mobile.bg/results/p1"))
      (Ok tt) 4242 (fun _ => true) (Ok tt).

(** The world of a worker that has just started. *)
Definition start : world := World 0 0 (new_frame columns) ∅ [].

(** The listings of the three result pages, in page order. *)
Definition all_listings : list str :=
  flat_map (fun n => default [] (match hrefs (find_all is_offer_link (results_page n)) with
                                 | Ok l => Some l
                                 | Raise _ => None
                                 end)) [1; 2; 3].

End Fixture.

Module FeatureFixture.

Definition label (s : string) : node := tag "label" [("class", "extra_cat")] [txt s].
Definition feature (s : string) : node := tag "div" [] [txt s].

(** A label with nothing after it. *)
Definition last_label : soup := [tag "div" [] [label "Безопасност"]].

(** A label with no value, followed by the label of a group with one. *)
Definition empty_group_first : soup :=
  [tag "div" [] [label "Безопасност"; label "Комфорт"; feature "• A"]].

(** A label followed only by a tag that is neither a value nor a label. *)
Definition label_then_break : soup := [tag "div" [] [label "Безопасност"; tag "br" [] []]].

(** A label with two values. *)
Definition two_values : soup :=
  [tag "div" [] [label "Безопасност"; feature "• A"; txt " "; feature "• B"]].

End FeatureFixture.

Module MergeFixture.

(** A row of the concatenated output: one listing of an Audi, with its
    model as written, its price and its view count. *)
Definition listing (model price views : string) : list cell :=
  map (fun c =>
         if str_eqb c (py "Модел") then Str (py model)
         else if str_eqb c (py "Цена [лв./EUR]") then Str (py price)
         else if str_eqb c (py "Посещения") then Str (py views)
         else if str_eqb c (py "Марка") then Str (py "Audi")
         else PyNone) columns.

(** The same listing scraped twice, with another spelling of the model and
    another view count, and a third row that differs from the first in its
    price only. *)
Definition concatenated : DataFrame :=
  Frame columns [listing "A4" "10 000 лв." "5";
                 listing "A 4" "10 000 лв." "9";
                 listing "A4" "12 000 лв." "5"].

End MergeFixture.

Module Sites.

(** A network that fails twice and then answers. *)
Definition flaky : environment :=
  Env (fun n url => if n <? 2 then Throws RequestException else Fixture.site url)
      (fun n _ _ => if n <? 2 then Crashed WebDriverException
                    else Landed (py "https://www.mobile.bg/results/p1"))
      (Ok tt) 4242 (fun _ => true) (Ok tt).

(** A network that is down. *)
Definition down : environment :=
  Env (fun _ _ => Throws RequestException)
      (fun _ _ _ => Landed (py "https://www.mobile.bg/results/p1"))
      (Ok tt) 4242 (fun _ => true) (Ok tt).

(** A site whose offer pages lack the main details. *)
Definition bare : environment :=
  Env (fun _ _ => Response Fixture.bare_page)
      (fun _ _ _ => Landed (py "https://www.mobile.bg/results/p1"))
      (Ok tt) 4242 (fun _ => true) (Ok tt).

End Sites.

(** ** [get_all_models] and the start of [main] *)

Section Enumeration.

(** What the browser shows of the search form: [model_options n make] is
    what the visit number [n] gives for [make], the texts of the options of
    the model select once [go_to_search_page_for_make(make)] has run, or
    the exception raised on the way. *)
Variable model_options : nat -> str -> result (list str).

(** The loop [for make in makes] with its list [tuples]. *)
Fixpoint get_all_models_from (visits : nat) (makes : list str) (tuples : list (str * str))
  : result (list (str * str)) :=
  match makes with
  | [] => Ok tuples
  | make :: rest =>
      (options <- model_options visits make ;;
       let all_models := drop 1 options in
       let new_tuples := map (fun model => (make, strip model)) all_models in
       get_all_models_from (S visits) rest (tuples ++ new_tuples))%result
  end.

Definition get_all_models (makes : list str) : result (list (str * str)) :=
  get_all_models_from 0 makes [].

(** [main] up to the shuffle: the makes are the texts of the options of the
    make select but the first. *)
Definition all_combinations (make_options : list str) : result (list (str * str)) :=
  let all_makes := drop 1 make_options in
  get_all_models all_makes.

End Enumeration.

(** ** [main]: putting the partial files together *)

Section Concatenation.

(** [pd.read_csv] on the lines of a file. *)
Variable read_csv : list csv_line -> result DataFrame.

(** [date.today()] as text. *)
Variable today : str.

Definition OUTPUT_FILE_PATH : str := py "./output/mobile.bg-offers-" ++ today ++ py ".csv".

Definition temp_file (partial_results_file : str) : str :=
  py "./temp/" ++ partial_results_file.

(** [for partial_results_file in os.listdir('./temp')], lines 285 to 290:
    read the partial file, append it to the output file with a header if
    that file is not there yet, and remove it. The files are kept as they
    are when an exception is raised; a name without a file is a
    [FileNotFoundError]. *)
Fixpoint merge_partial_results (listdir : list str) (fs : filesystem)
  : result unit * filesystem :=
  match listdir with
  | [] => (Ok tt, fs)
  | partial_results_file :: rest =>
      match fs !! temp_file partial_results_file with
      | None => (Raise OtherError, fs)
      | Some lines =>
          match read_csv lines with
          | Raise e => (Raise e, fs)
          | Ok partial_results_df =>
              let fs := to_csv partial_results_df OUTPUT_FILE_PATH
                               (negb (path_exists fs OUTPUT_FILE_PATH)) fs in
              merge_partial_results rest (delete (temp_file partial_results_file) fs)
          end
      end
  end.

End Concatenation.

(** ** Further fixtures *)

Module Cases.

(** A result page with two offers and no page links at all. *)
Definition lone_result_page : soup :=
  [tag "html" [] [Fixture.offer_link "1"; Fixture.offer_link "2"]].

Definition lone_site : environment :=
  Env (fun _ url =>
         if str_eqb url (py "https://www.mobile.bg/results/p1")
         then Response lone_result_page else Response Fixture.offer_page)
      (fun _ _ _ => Landed (py "https://www.mobile.bg/results/p1"))
      (Ok tt) 4242 (fun _ => true) (Ok tt).

(** A site whose result pages cannot be fetched. *)
Definition no_results : environment :=
  Env (fun _ _ => Throws RequestException)
      (fun _ _ _ => Landed (py "https://www.mobile.bg/results/p1"))
      (Ok tt) 4242 (fun _ => true) (Ok tt).

(** An offer page with its main details but without a price node. *)
Definition unpriced_page : soup :=
  [tag "html" [] [
     tag "h1" [] [txt "Audi A4"];
     tag "span" [("class", "advact")] [txt "7"];
     tag "ul" [("class", "dilarData")] [Fixture.li "Цвят"; Fixture.li "Черен"]]].

Definition unpriced : environment :=
  Env (fun _ _ => Response unpriced_page)
      (fun _ _ _ => Landed (py "https://www.mobile.bg/results/p1"))
      (Ok tt) 4242 (fun _ => true) (Ok tt).

(** A main-details list with two pairs and a label left over. *)
Definition details_page : soup :=
  [tag "ul" [("class", "dilarData")]
     [Fixture.li "Мощност"; Fixture.li "150 к.с."; Fixture.li "Цвят"; Fixture.li "Черен";
      Fixture.li "Евростандарт"]].

(** The search form: a placeholder and two makes, each with a placeholder
    and its models. *)
Definition model_options (n : nat) (make : str) : result (list str) :=
  if str_eqb make (py "Audi") then Ok [py "-"; py " A4"; py "A6 "]
  else if str_eqb make (py "BMW") then Ok [py "-"; py "X5"]
  else Raise IndexError.

(** A reader of partial files: the first line is the header, and the
    cells are given back as they were written. ([pd.read_csv] also types
    the columns, which makes no difference to what is written back for the
    files below.) *)
Definition read_csv (lines : list csv_line) : result DataFrame :=
  match lines with
  | Header cols :: rest =>
      Ok (Frame cols (map (fun line => match line with
                                       | Row cells => cells
                                       | Header labels => map Str labels
                                       end) rest))
  | _ => Raise OtherError
  end.

Definition temp_files : filesystem :=
  <[py "./temp/partial-1.csv" := [Header [py "a"; py "b"]; Row [Str (py "1"); PyNone]]]>
    (<[py "./temp/partial-2.csv" := [Header [py "a"; py "b"]; Row [Str (py "2"); PyNone];
                                     Row [Str (py "3"); PyNone]]]> ∅).

End Cases.

(** * Properties *)

(** ** The page fetcher *)

Section Fetcher.

Variable E : environment.

(** One round of the loop, by the answer of the network. *)
Lemma get_page_loop_step i rest url w :
  get_page_loop E (i :: rest) url w =
  match answer E url w 0 with
  | Response content => (Ok (Some content), tick_request (add_log (Info_getting_page url) w))
  | Throws e =>
      if decide (e = RequestException)
      then get_page_loop E rest url
             (add_log (Error_request_exception (i + 1))
                (tick_request (add_log (Info_getting_page url) w)))
      else (Raise e, tick_request (add_log (Info_getting_page url) w))
  end.
Proof.
  unfold answer. rewrite Nat.add_0_r. simpl. unfold fetch. simpl.
  destruct (requests_get E _ _); reflexivity.
Qed.

Lemma answer_after_failure i url w k :
  answer E url (add_log (Error_request_exception i)
                   (tick_request (add_log (Info_getting_page url) w))) k
  = answer E url w (S k).
Proof. unfold answer. simpl. f_equal. lia. Qed.

Lemma get_page_loop_first_page attempts url w k content :
  k < length attempts ->
  (forall j, j < k -> answer E url w j = Throws RequestException) ->
  answer E url w k = Response content ->
  fst (get_page_loop E attempts url w) = Ok (Some content)
  /\ requests_made (snd (get_page_loop E attempts url w)) = requests_made w + k + 1.
Proof.
  revert w k. induction attempts as [|i rest IH]; intros w k Hk Hfail Hpage.
  - simpl in Hk. lia.
  - rewrite get_page_loop_step. destruct k as [|k].
    + rewrite Hpage. simpl. split; [reflexivity | lia].
    + rewrite (Hfail 0) by lia. simpl.
      destruct (IH (add_log (Error_request_exception (i + 1))
                      (tick_request (add_log (Info_getting_page url) w))) k) as [Hr Hm].
      * simpl in Hk. lia.
      * intros j Hj. rewrite answer_after_failure. apply Hfail. lia.
      * rewrite answer_after_failure. exact Hpage.
      * split; [exact Hr | rewrite Hm; simpl; lia].
Qed.

Lemma get_page_loop_other_exception attempts url w k e :
  k < length attempts ->
  (forall j, j < k -> answer E url w j = Throws RequestException) ->
  answer E url w k = Throws e -> e <> RequestException ->
  fst (get_page_loop E attempts url w) = Raise e
  /\ requests_made (snd (get_page_loop E attempts url w)) = requests_made w + k + 1.
Proof.
  revert w k. induction attempts as [|i rest IH]; intros w k Hk Hfail Hexn Hne.
  - simpl in Hk. lia.
  - rewrite get_page_loop_step. destruct k as [|k].
    + rewrite Hexn. destruct (decide (e = RequestException)); [contradiction|].
      simpl. split; [reflexivity | lia].
    + rewrite (Hfail 0) by lia. simpl.
      destruct (IH (add_log (Error_request_exception (i + 1))
                      (tick_request (add_log (Info_getting_page url) w))) k) as [Hr Hm].
      * simpl in Hk. lia.
      * intros j Hj. rewrite answer_after_failure. apply Hfail. lia.
      * rewrite answer_after_failure. exact Hexn.
      * exact Hne.
      * split; [exact Hr | rewrite Hm; simpl; lia].
Qed.

Lemma get_page_loop_exhausted attempts url w :
  (forall j, j < length attempts -> answer E url w j = Throws RequestException) ->
  fst (get_page_loop E attempts url w) = Ok None
  /\ requests_made (snd (get_page_loop E attempts url w)) = requests_made w + length attempts.
Proof.
  revert w. induction attempts as [|i rest IH]; intros w Hfail.
  - simpl. split; [reflexivity | lia].
  - rewrite get_page_loop_step, (Hfail 0) by (simpl; lia). simpl.
    destruct (IH (add_log (Error_request_exception (i + 1))
                    (tick_request (add_log (Info_getting_page url) w)))) as [Hr Hm].
    + intros j Hj. rewrite answer_after_failure. apply Hfail. simpl. lia.
    + split; [exact Hr | rewrite Hm; simpl; lia].
Qed.

Lemma get_page_loop_bound attempts url w :
  requests_made (snd (get_page_loop E attempts url w)) <= requests_made w + length attempts
  /\ (attempts <> [] -> requests_made w < requests_made (snd (get_page_loop E attempts url w)))
  /\ fst (get_page_loop E attempts url w) <> Raise RequestException.
Proof.
  revert w. induction attempts as [|i rest IH]; intros w.
  - simpl. repeat split; [lia | congruence | discriminate].
  - rewrite get_page_loop_step.
    destruct (answer E url w 0) as [content|e].
    + simpl. repeat split; [lia | intros _; lia | discriminate].
    + destruct (decide (e = RequestException)) as [->|Hne].
      * destruct (IH (add_log (Error_request_exception (i + 1))
                        (tick_request (add_log (Info_getting_page url) w)))) as (Hle & _ & Hr).
        simpl in Hle. repeat split; [simpl; lia | | exact Hr].
        intros _.
        assert (Hmono : forall l v, requests_made v <= requests_made (snd (get_page_loop E l url v))).
        { clear. induction l as [|i' l IHl]; intros v; [simpl; lia|].
          rewrite get_page_loop_step. destruct (answer E url v 0) as [c|e]; [simpl; lia|].
          destruct (decide (e = RequestException)); [|simpl; lia].
          etransitivity; [|apply IHl]. simpl. lia. }
        eapply Nat.lt_le_trans; [|apply Hmono]. simpl. lia.
      * simpl. repeat split; [lia | intros _; lia | congruence].
Qed.

End Fetcher.

(** C8. [get_page] asks the network at least once and at most three times.
    It asks again only after a [RequestException]: the first answer that is
    a page is returned, parsed, and any other exception leaves the function
    at once. When all three requests fail with a [RequestException] the
    function returns [None] and does not raise. *)
Theorem get_page_retries_three_times (E : environment) (url : str) (w : world) :
  let r := fst (get_page E url w) in
  let made := requests_made (snd (get_page E url w)) - requests_made w in
  1 <= made <= 3
  /\ (forall k content, k < 3 ->
        (forall j, j < k -> answer E url w j = Throws RequestException) ->
        answer E url w k = Response content ->
        r = Ok (Some content) /\ made = k + 1)
  /\ (forall k e, k < 3 ->
        (forall j, j < k -> answer E url w j = Throws RequestException) ->
        answer E url w k = Throws e -> e <> RequestException ->
        r = Raise e /\ made = k + 1)
  /\ ((forall j, j < 3 -> answer E url w j = Throws RequestException) ->
       r = Ok None /\ made = 3)
  /\ r <> Raise RequestException.
Proof.
  intros r made. subst r made. unfold get_page.
  destruct (get_page_loop_bound E (range 3) url w) as (Hle & Hlt & Hr).
  specialize (Hlt ltac:(discriminate)). change (length (range 3)) with 3 in Hle.
  split; [lia|]. split; [|split; [|split]].
  - intros k content Hk Hfail Hpage.
    destruct (get_page_loop_first_page E (range 3) url w k content Hk Hfail Hpage) as [-> ->].
    split; [reflexivity | lia].
  - intros k e Hk Hfail Hexn Hne.
    destruct (get_page_loop_other_exception E (range 3) url w k e Hk Hfail Hexn Hne) as [-> ->].
    split; [reflexivity | lia].
  - intros Hfail.
    destruct (get_page_loop_exhausted E (range 3) url w Hfail) as [-> ->].
    split; [reflexivity | change (length (range 3)) with 3; lia].
  - exact Hr.
Qed.

(** ** Classes and the next-page test *)

Lemma nonwhitespace_findall_cons c r :
  nonwhitespace_findall (c :: r) =
  if isspace c then nonwhitespace_findall r
  else match r with
       | [] => [[c]]
       | c' :: _ =>
           if isspace c' then [c] :: nonwhitespace_findall r
           else match nonwhitespace_findall r with
                | t :: ts => (c :: t) :: ts
                | [] => [[c]]
                end
       end.
Proof. destruct r; reflexivity. Qed.

Lemma nonwhitespace_findall_classes s : Forall is_class (nonwhitespace_findall s).
Proof.
  induction s as [|c r IH]; [constructor|].
  rewrite nonwhitespace_findall_cons.
  destruct (isspace c) eqn:Hc; [exact IH|].
  assert (Hone : is_class [c]) by (split; [discriminate | repeat constructor; exact Hc]).
  destruct r as [|c' r']; [constructor; [exact Hone | constructor]|].
  destruct (isspace c') eqn:Hc'; [constructor; [exact Hone | exact IH]|].
  destruct (nonwhitespace_findall (c' :: r')) as [|t ts]; [constructor; [exact Hone | constructor]|].
  inversion IH as [|? ? [Ht Hall] Hts]; subst.
  constructor; [|exact Hts].
  split; [discriminate | constructor; assumption].
Qed.

Lemma join_classes_last sep classes :
  Forall is_class classes -> classes <> [] ->
  exists c, last (join sep classes) = Some c /\ isspace c = false.
Proof.
  induction 1 as [|t ts [Hne Hall] Hts IH]; intros Hnil; [contradiction|].
  destruct ts as [|t' ts'].
  - simpl. destruct (last t) as [c|] eqn:Hl.
    + exists c. split; [reflexivity|].
      apply last_Some_elem_of in Hl. rewrite Forall_forall in Hall. apply Hall, Hl.
    + apply last_None in Hl. contradiction.
  - destruct IH as (c & Hl & Hc); [discriminate|].
    exists c. split; [|exact Hc].
    change (join sep (t :: t' :: ts')) with (t ++ sep ++ join sep (t' :: ts')).
    rewrite !last_app, Hl. reflexivity.
Qed.

(** No tag has the class [saveSlink ] with its trailing space: the classes
    of a tag hold no white space, and joined by single spaces they do not
    end in one. *)
Lemma matches_class_saveSlink_space e : matches_class (py "saveSlink ") e = false.
Proof.
  unfold matches_class. destruct (get_class e) as [classes|] eqn:Hcl; [|reflexivity].
  unfold get_class in Hcl. destruct (attrs e !! py "class") as [raw|]; [|discriminate].
  simpl in Hcl. injection Hcl as <-.
  pose proof (nonwhitespace_findall_classes raw) as Hall.
  apply orb_false_intro.
  - apply not_true_is_false. intros Hex. apply existsb_exists in Hex.
    destruct Hex as (item & Hin & Heq). unfold str_eqb in Heq.
    apply bool_decide_eq_true in Heq. subst item.
    apply list_elem_of_In in Hin.
    rewrite Forall_forall in Hall. destruct (Hall _ Hin) as [_ Hns].
    rewrite Forall_forall in Hns. specialize (Hns 32%N).
    assert (isspace 32 = false) as Hsp; [|discriminate Hsp].
    apply Hns, list_elem_of_In. vm_compute. tauto.
  - unfold str_eqb. apply bool_decide_eq_false. intros Heq.
    destruct (nonwhitespace_findall raw) as [|t ts] eqn:Hts; [discriminate Heq|].
    destruct (join_classes_last (py " ") (t :: ts) Hall ltac:(discriminate)) as (c & Hl & Hc).
    rewrite Heq in Hl. vm_compute in Hl. injection Hl as <-. discriminate Hc.
Qed.

Lemma filter_none {X} (p : X -> bool) (l : list X) :
  (forall x, p x = false) -> List.filter p l = [].
Proof. intros Hp. induction l as [|x l IH]; simpl; [|rewrite Hp]; auto. Qed.

(** [has_next_page] answers [False] on every tag. *)
Lemma has_next_page_false (current : element) : has_next_page (Some current) = Ok false.
Proof.
  unfold has_next_page, deref, bind. f_equal.
  unfold find_next_sibling.
  rewrite (filter_none (by_name_class (py "a") (py "saveSlink "))).
  - apply andb_false_r.
  - intros x. unfold by_name_class. rewrite matches_class_saveSlink_space. apply andb_false_r.
Qed.

(** ** What the functions below [scrape_model] leave alone *)

Section Invariant.

Variable E : environment.

(** A relation between the world before and after, kept by every step. *)
Variable P : world -> world -> Prop.
Hypothesis P_refl : forall w, P w w.
Hypothesis P_trans : forall a b c, P a b -> P b c -> P a c.
Hypothesis P_log : forall r w, inner_record r = true -> P w (add_log r w).
Hypothesis P_request : forall w, P w (tick_request w).
Hypothesis P_append :
  forall w d data, loc_append (frame w) d = Ok data -> P w (set_frame data w).

Lemma keeps_ret {A} (a : A) : keeps P (ret a).
Proof. intros w r w' H. inversion H; subst. apply P_refl. Qed.

Lemma keeps_raise {A} (e : exn) : keeps P (@raise A e).
Proof. intros w r w' H. inversion H; subst. apply P_refl. Qed.

Lemma keeps_lift {A} (x : result A) : keeps P (lift x).
Proof. intros w r w' H. inversion H; subst. apply P_refl. Qed.

Lemma keeps_logging r : inner_record r = true -> keeps P (logging r).
Proof. intros Hr w r' w' H. inversion H; subst. apply P_log, Hr. Qed.

Lemma keeps_bind {A B} (m : M A) (k : A -> M B) :
  keeps P m -> (forall a, keeps P (k a)) -> keeps P (mbind m k).
Proof.
  intros Hm Hk w r w' H. unfold mbind in H.
  destruct (m w) as [[a|e] w1] eqn:Hmw.
  - eapply P_trans; [eapply Hm, Hmw | eapply Hk, H].
  - inversion H; subst. eapply Hm, Hmw.
Qed.

Lemma keeps_get_page_loop attempts url : keeps P (get_page_loop E attempts url).
Proof.
  induction attempts as [|i rest IH]; [apply keeps_ret|].
  intros w r w' H. rewrite get_page_loop_step in H.
  assert (Hstep : P w (tick_request (add_log (Info_getting_page url) w))).
  { apply (P_trans _ (add_log (Info_getting_page url) w));
      [apply P_log; reflexivity | apply P_request]. }
  destruct (answer E url w 0) as [content|e].
  - inversion H; subst. exact Hstep.
  - destruct (decide (e = RequestException)).
    + eapply P_trans; [exact Hstep|].
      eapply P_trans; [apply (P_log (Error_request_exception (i + 1))); reflexivity|].
      eapply IH, H.
    + inversion H; subst. exact Hstep.
Qed.

Lemma keeps_get_page url : keeps P (get_page E url).
Proof. apply keeps_get_page_loop. Qed.

Lemma keeps_parse_main_car_details offer_soup target :
  keeps P (parse_main_car_details offer_soup target).
Proof.
  unfold parse_main_car_details.
  destruct (main_car_details_html_list offer_soup) as [html_list|[]];
    try apply keeps_ret; try apply keeps_raise.
  apply keeps_bind; [apply keeps_logging; reflexivity | intros; apply keeps_raise].
Qed.

Lemma keeps_region_city page : keeps P (region_city page).
Proof.
  unfold region_city. destruct (find _ page); [apply keeps_ret|].
  apply keeps_bind; [apply keeps_logging; reflexivity | intros; apply keeps_ret].
Qed.

Lemma keeps_append_row parsed_data : keeps P (append_row parsed_data).
Proof.
  intros w r w' H. unfold append_row in H.
  destruct (loc_append (frame w) parsed_data) as [data|e] eqn:Hl; inversion H; subst.
  - eapply P_append, Hl.
  - apply P_refl.
Qed.

Lemma keeps_finish_offer make model offer_soup parsed_data :
  keeps P (finish_offer make model offer_soup parsed_data).
Proof.
  unfold finish_offer.
  repeat first
    [ apply keeps_bind; [|intros ?]
    | apply keeps_lift
    | apply keeps_region_city
    | apply keeps_append_row ].
Qed.

Lemma keeps_scrape_offer_data make model offer_url :
  keeps P (scrape_offer_data E make model offer_url).
Proof.
  intros w r w' H. unfold scrape_offer_data in H.
  destruct ((logging (Info_scraping_offer offer_url);;; get_page E offer_url)%M w)
    as [[offer_soup|e] w1] eqn:H1.
  - assert (P w w1) as Hw1.
    { revert H1. apply keeps_bind; [apply keeps_logging; reflexivity|].
      intros; apply keeps_get_page. }
    destruct (parse_main_car_details offer_soup ∅ w1) as [[parsed_data|e] w2] eqn:H2.
    + apply keeps_parse_main_car_details in H2. apply keeps_finish_offer in H.
      eauto.
    + apply keeps_parse_main_car_details in H2.
      destruct e; inversion H; subst; eauto.
  - inversion H; subst. revert H1.
    apply keeps_bind; [apply keeps_logging; reflexivity|].
    intros; apply keeps_get_page.
Qed.

Lemma keeps_scrape_offers make model offer_links :
  keeps P (scrape_offers E make model offer_links).
Proof.
  induction offer_links as [|link rest IH]; [apply keeps_ret|].
  simpl. apply keeps_bind; [apply keeps_scrape_offer_data | intros; exact IH].
Qed.

End Invariant.

(** ** The loop over the result pages ends after the first page *)

Section Pages.

Variable E : environment.

Lemma pages_loop_single_page fuel make model current_page_soup w :
  pages_loop E (S fuel) make model current_page_soup w
  = Some (single_page E make model current_page_soup w).
Proof.
  simpl. unfold single_page, mbind, lift, ret.
  destruct (deref current_page_soup) as [page|e]; [|reflexivity].
  destruct (hrefs (find_all is_offer_link page)) as [offer_links|e]; [|reflexivity].
  destruct (scrape_offers E make model offer_links w) as [[[]|e] w1]; [|reflexivity].
  destruct (find (by_name_class (py "a") (py "saveSlink selected")) page) as [current|].
  - rewrite has_next_page_false. reflexivity.
  - reflexivity.
Qed.

Lemma scrape_model_first_page fuel make model w :
  scrape_model E (S fuel) make model w = Some (scrape_first_page E make model w).
Proof.
  unfold scrape_model, scrape_first_page.
  unfold mbind.
  destruct (go_to_model_offers E make model w) as [[current_url|e] w1]; [|reflexivity].
  destruct (logging (Info_getting_offers make model) w1) as [[[]|e] w2]; [|reflexivity].
  destruct (get_page E (drop 6 current_url) w2) as [[current_page_soup|e] w3]; [|reflexivity].
  apply pages_loop_single_page.
Qed.

End Pages.

(** ** The paginator *)

(** C7. On three linked result pages holding the offers 1 and 2, then 3,
    then 4, [scrape_model] ends without an error after the first page: it
    asks for the offers 1 and 2 only and never requests the second page,
    although the first page carries the links to the pages 2 and 3. *)
Theorem paginator_stops_after_first_page (fuel : nat) :
  Fixture.all_listings = map Fixture.offer_url ["1"; "2"; "3"; "4"]
  /\ exists w',
       scrape_model Fixture.three_pages (S fuel) (py "Audi") (py "A4") Fixture.start
       = Some (Ok tt, w')
       /\ offers_scraped w' = map Fixture.offer_url ["1"; "2"]
       /\ requests_made w' = 3
       /\ has_next_page
            (find (by_name_class (py "a") (py "saveSlink selected")) (Fixture.results_page 1))
          = Ok false.
Proof.
  split; [vm_compute; reflexivity|].
  rewrite scrape_model_first_page.
  eexists. split; [vm_compute; reflexivity|].
  repeat split; vm_compute; reflexivity.
Qed.

(** ** The record extractor *)

Lemma fold_insert_None_lookup (l : list str) (d : dict) (c : str) :
  fold_left (fun d k => <[k := None]> d) l d !! c
  = if decide (c ∈ l) then Some None else d !! c.
Proof.
  revert d. induction l as [|k l IH]; intros d; simpl.
  - destruct (decide (c ∈ [])) as [Hin|]; [inversion Hin | reflexivity].
  - rewrite IH. destruct (decide (c ∈ l)) as [Hin|Hnin].
    + destruct (decide (c ∈ k :: l)) as [|Hn]; [reflexivity|].
      exfalso. apply Hn. right. exact Hin.
    + destruct (decide (c = k)) as [->|Hne].
      * rewrite lookup_insert_eq.
        destruct (decide (k ∈ k :: l)) as [|Hn]; [reflexivity|].
        exfalso. apply Hn. left.
      * rewrite lookup_insert_ne by congruence.
        destruct (decide (c ∈ k :: l)) as [Hin|]; [|reflexivity].
        inversion Hin; subst; contradiction.
Qed.

(** After the fill every column of the schema is a key. *)
Lemma fill_missing_is_Some (parsed_data : dict) (c : str) :
  c ∈ columns -> is_Some (fill_missing parsed_data !! c).
Proof.
  intros Hc. unfold fill_missing. rewrite fold_insert_None_lookup.
  destruct (decide (c ∈ _)) as [|Hn]; [eauto|].
  destruct (parsed_data !! c) as [v|] eqn:Hv; [eauto|].
  exfalso. apply Hn. apply list_elem_of_In, filter_In. split.
  - apply list_elem_of_In, Hc.
  - apply bool_decide_eq_true. exact Hv.
Qed.

(** The fill leaves what the page gave. *)
Lemma fill_missing_keeps (parsed_data : dict) (c : str) (v : option str) :
  parsed_data !! c = Some v -> fill_missing parsed_data !! c = Some v.
Proof.
  intros Hv. unfold fill_missing. rewrite fold_insert_None_lookup.
  destruct (decide (c ∈ _)) as [Hin|]; [|exact Hv].
  apply list_elem_of_In, filter_In in Hin. destruct Hin as [_ Hn].
  apply bool_decide_eq_true in Hn. congruence.
Qed.


Lemma loc_append_Ok data value data' :
  loc_append data value = Ok data' ->
  df_columns data' = df_columns data
  /\ df_rows data' = df_rows data ++ [map (cell_of value) (df_columns data)].
Proof.
  unfold loc_append. destruct (df_columns data) as [|c cols]; [discriminate|].
  intros H. injection H as <-. split; reflexivity.
Qed.

(** [finish_offer] either raises and leaves the frame as it is, or appends
    the filled dictionary read at the columns of the frame. *)
Lemma finish_offer_frame make model offer_soup parsed_data w r w' :
  finish_offer make model offer_soup parsed_data w = (r, w') ->
  (frame w' = frame w /\ exists e, r = Raise e)
  \/ (exists filled,
        r = Ok tt
        /\ (forall c, c ∈ columns -> is_Some (filled !! c))
        /\ df_columns (frame w') = df_columns (frame w)
        /\ df_rows (frame w')
           = df_rows (frame w) ++ [map (cell_of filled) (df_columns (frame w))]).
Proof.
  unfold finish_offer, region_city, mbind, lift, logging, ret, append_row.
  intros H.
  destruct offer_soup as [page|]; cbv beta iota delta [deref] in H;
    [|inversion H; subst; left; eauto].
  destruct (find (by_name_class (py "div") (py "adress")) page);
    repeat match type of H with
           | context [match ?x with _ => _ end] => destruct x eqn:?
           end; simplify_eq;
    try (left; split; [reflexivity | eauto]; fail).
  all: right; eexists; split; [reflexivity|]; split; [apply fill_missing_is_Some|];
    match goal with Hl : loc_append _ _ = Ok _ |- _ => apply loc_append_Ok in Hl; apply Hl end.
Qed.

Lemma same_data_refl w : same_data w w.
Proof. repeat split. Qed.

Lemma same_data_trans a b c : same_data a b -> same_data b c -> same_data a c.
Proof. unfold same_data. intros (?&?&?) (?&?&?). repeat split; congruence. Qed.

Lemma only_logged_refl w : only_logged w w.
Proof. repeat split. Qed.

Lemma only_logged_trans a b c : only_logged a b -> only_logged b c -> only_logged a c.
Proof.
  unfold only_logged. intros [? ?] [? ?].
  split; [eapply same_data_trans; eassumption | congruence].
Qed.

Lemma get_page_same_data E url w r w' :
  get_page E url w = (r, w') -> same_data w w'.
Proof.
  apply (keeps_get_page E same_data same_data_refl same_data_trans);
    intros; repeat split.
Qed.

Lemma parse_main_car_details_only_logged offer_soup target w r w' :
  parse_main_car_details offer_soup target w = (r, w') -> only_logged w w'.
Proof.
  apply (keeps_parse_main_car_details only_logged only_logged_refl only_logged_trans).
  intros; repeat split.
Qed.

Lemma scrape_offer_data_eq E make model offer_url w :
  scrape_offer_data E make model offer_url w =
  match get_page E offer_url (add_log (Info_scraping_offer offer_url) w) with
  | (Raise e, w1) => (Raise e, w1)
  | (Ok offer_soup, w1) =>
      match parse_main_car_details offer_soup ∅ w1 with
      | (Raise ValueError, w2) => (Ok tt, w2)
      | (Raise e, w2) => (Raise e, w2)
      | (Ok parsed_data, w2) => finish_offer make model offer_soup parsed_data w2
      end
  end.
Proof. reflexivity. Qed.

Lemma main_car_details_html_list_absent offer_soup :
  main_details_absent offer_soup <->
  main_car_details_html_list offer_soup = Raise AttributeError.
Proof.
  unfold main_details_absent, main_car_details_html_list, bind, deref.
  destruct offer_soup as [page|]; [|tauto].
  destruct (find _ page); split; congruence.
Qed.

Lemma parse_main_car_details_absent offer_soup target w :
  main_details_absent offer_soup ->
  parse_main_car_details offer_soup target w
  = (Raise ValueError, add_log Warning_no_main_car_details w).
Proof.
  intros H. apply main_car_details_html_list_absent in H.
  unfold parse_main_car_details. rewrite H. reflexivity.
Qed.


(** A listing whose main details are absent is skipped: nothing is raised
    and only the log grows. *)
Lemma scrape_offer_data_skip E make model offer_url w offer_soup w1 :
  get_page E offer_url (add_log (Info_scraping_offer offer_url) w) = (Ok offer_soup, w1) ->
  main_details_absent offer_soup ->
  scrape_offer_data E make model offer_url w
  = (Ok tt, add_log Warning_no_main_car_details w1).
Proof.
  intros Hpage Habsent. rewrite scrape_offer_data_eq, Hpage.
  rewrite parse_main_car_details_absent by exact Habsent. reflexivity.
Qed.

(** C4. When the page of a listing is there but has no main-details list,
    [scrape_offer_data] returns without raising; the frame and the files are
    as before, the page is not requested again, and the loop over the
    listings of the result page goes on with the next link. *)
Theorem missing_main_details_skip_the_listing
  (E : environment) (make model offer_url : str) (rest : list str)
  (w w1 : world) (page : soup) :
  get_page E offer_url (add_log (Info_scraping_offer offer_url) w) = (Ok (Some page), w1) ->
  find (by_name_class (py "ul") (py "dilarData")) page = None ->
  let skipped := add_log Warning_no_main_car_details w1 in
  scrape_offer_data E make model offer_url w = (Ok tt, skipped)
  /\ frame skipped = frame w
  /\ files skipped = files w
  /\ requests_made skipped = requests_made w1
  /\ scrape_offers E make model (offer_url :: rest) w
     = scrape_offers E make model rest skipped.
Proof.
  intros Hpage Habsent skipped.
  assert (Hskip : scrape_offer_data E make model offer_url w = (Ok tt, skipped)).
  { apply (scrape_offer_data_skip E make model offer_url w (Some page) w1 Hpage Habsent). }
  destruct (get_page_same_data _ _ _ _ _ Hpage) as (Hf & Hfs & _).
  split; [exact Hskip|]. split; [exact Hf|]. split; [exact Hfs|]. split; [reflexivity|].
  simpl. unfold mbind. rewrite Hskip. reflexivity.
Qed.

(** C10. When the three requests for the page of an offer all fail with a
    [RequestException], [get_page] hands [None] to [scrape_offer_data],
    whose main-details step raises the [ValueError] of an absent block; the
    function returns without raising, and the frame and the files are as
    before. *)
Theorem unavailable_offer_page_is_skipped
  (E : environment) (make model offer_url : str) (w : world) :
  (forall j, j < 3 -> answer E offer_url w j = Throws RequestException) ->
  let fetched := get_page E offer_url (add_log (Info_scraping_offer offer_url) w) in
  let done := scrape_offer_data E make model offer_url w in
  fst fetched = Ok None
  /\ parse_main_car_details None ∅ (snd fetched)
     = (Raise ValueError, add_log Warning_no_main_car_details (snd fetched))
  /\ done = (Ok tt, add_log Warning_no_main_car_details (snd fetched))
  /\ frame (snd done) = frame w
  /\ files (snd done) = files w.
Proof.
  intros Hfail fetched done.
  destruct (get_page_loop_exhausted E (range 3) offer_url
              (add_log (Info_scraping_offer offer_url) w) Hfail) as [Hnone _].
  fold (get_page E offer_url (add_log (Info_scraping_offer offer_url) w)) in Hnone.
  fold fetched in Hnone.
  assert (Hdone : done = (Ok tt, add_log Warning_no_main_car_details (snd fetched))).
  { subst done. apply (scrape_offer_data_skip E make model offer_url w None).
    - rewrite <- Hnone. subst fetched. apply surjective_pairing.
    - exact I. }
  destruct (get_page_same_data E offer_url (add_log (Info_scraping_offer offer_url) w)
              (fst fetched) (snd fetched)) as (Hf & Hfs & _).
  { subst fetched. apply surjective_pairing. }
  split; [exact Hnone|]. split; [reflexivity|]. split; [exact Hdone|].
  rewrite Hdone. split; [exact Hf | exact Hfs].
Qed.


(** ** The feature groups *)

(** The chain of [find_next_sibling()] from a tag is the list of the tags
    that follow it. *)
Lemma sibling_tags_chain (l : list node) (d : element) (rest : list element) :
  sibling_tags l = d :: rest -> sibling_tags (next_siblings d) = rest.
Proof.
  induction l as [|n l IH]; [discriminate|].
  destruct n as [s|nm ats cs]; simpl; [exact IH|].
  intros H. injection H as <- <-. reflexivity.
Qed.

Lemma feature_walk_values (values stop : list element) :
  Forall (fun d => name d <> py "label") values ->
  (stop = [] \/ exists l rest, stop = l :: rest /\ name l = py "label") ->
  feature_walk (values ++ stop) = map (fun d => strip (drop 2 (text d))) values.
Proof.
  intros Hvalues Hstop. induction Hvalues as [|d values Hd _ IH]; simpl.
  - destruct Hstop as [->|(l & rest & -> & Hl)]; [reflexivity|].
    simpl. unfold str_eqb. rewrite bool_decide_eq_true_2 by exact Hl. reflexivity.
  - unfold str_eqb. rewrite bool_decide_eq_false_2 by exact Hd. rewrite IH. reflexivity.
Qed.

(** A label followed, among the tags after it, by one or more [div]s and
    then by the next label or by nothing gets the texts of these [div]s,
    each without its first two characters and trimmed, joined by a comma
    and a space. *)
Lemma feature_group_collects (label first : element) (more stop : list element)
  (target : dict) :
  sibling_tags (next_siblings label) = (first :: more) ++ stop ->
  Forall (fun d => name d = py "div") (first :: more) ->
  (stop = [] \/ exists l rest, stop = l :: rest /\ name l = py "label") ->
  parse_feature_label label target
  = Ok (<[text label :=
           Some (join (py ", ") (map (fun d => strip (drop 2 (text d))) (first :: more)))]>
          target).
Proof.
  intros Hsib Hdivs Hstop.
  unfold parse_feature_label, find_next_sibling, any_tag.
  assert (Hall : List.filter (fun _ : element => true) (sibling_tags (next_siblings label))
                 = sibling_tags (next_siblings label)).
  { generalize (sibling_tags (next_siblings label)).
    induction l as [|x l IHl]; simpl; [|rewrite IHl]; reflexivity. }
  rewrite Hall, Hsib. cbn [head app deref bind].
  inversion Hdivs as [|? ? Hfirst Hmore]; subst.
  unfold str_eqb at 1. rewrite bool_decide_eq_true_2 by exact Hfirst.
  cbn [negb]. unfold feature_list_from.
  rewrite (sibling_tags_chain _ first (more ++ stop) Hsib).
  assert (Hwalk : feature_walk ((first :: more) ++ stop)
                  = map (fun d => strip (drop 2 (text d))) (first :: more)).
  { apply feature_walk_values; [|exact Hstop].
    eapply Forall_impl; [exact Hdivs|]. intros d Hd. simpl in Hd. rewrite Hd.
    vm_compute. discriminate. }
  change ((first :: more) ++ stop) with (first :: (more ++ stop)) in Hwalk.
  rewrite Hwalk. reflexivity.
Qed.

(** C5. The feature-group parser on four small pages. A label with the two
    values [• A] and [• B] gets ["A, B"], and a label followed only by a
    tag that is no value gets the empty string. But a label that is the last
    tag of its parent makes the parser raise [AttributeError], so no field
    is set at all; and a label with no value that stands before the label
    of the next group is given the values of that next group. *)
Theorem feature_parser_on_a_label_without_values :
  parse_additional_car_features FeatureFixture.last_label ∅ = Raise AttributeError
  /\ parse_additional_car_features FeatureFixture.empty_group_first ∅
     = Ok (<[py "Комфорт" := Some (py "A")]> (<[py "Безопасност" := Some (py "A")]> ∅))
  /\ parse_additional_car_features FeatureFixture.label_then_break ∅
     = Ok (<[py "Безопасност" := Some []]> ∅)
  /\ parse_additional_car_features FeatureFixture.two_values ∅
     = Ok (<[py "Безопасност" := Some (py "A, B")]> ∅).
Proof. repeat split; vm_compute; reflexivity. Qed.

(** ** The retry loop of the worker *)

Lemma outer_refl w : outer w w.
Proof. repeat split. Qed.

Lemma outer_trans a b c : outer a b -> outer b c -> outer a c.
Proof. unfold outer. intros (?&?&?) (?&?&?). repeat split; congruence. Qed.

Lemma outer_log r w : inner_record r = true -> outer w (add_log r w).
Proof.
  intros Hr. repeat split. unfold retries_logged. simpl.
  rewrite List.filter_app, length_app. destruct r; try discriminate Hr; simpl; lia.
Qed.

Lemma outer_request w : outer w (tick_request w).
Proof. repeat split. Qed.

Lemma outer_append (w : world) (d : dict) (data : DataFrame) :
  loc_append (frame w) d = Ok data -> outer w (set_frame data w).
Proof. intros _. repeat split. Qed.

Section Worker.

Variable E : environment.

Lemma single_page_outer make model current_page_soup w r w' :
  single_page E make model current_page_soup w = (r, w') -> outer w w'.
Proof.
  revert w r w'. change (keeps outer (single_page E make model current_page_soup)).
  unfold single_page.
  repeat first
    [ apply (keeps_bind outer outer_trans); [|intros ?]
    | apply (keeps_lift outer outer_refl)
    | apply (keeps_ret outer outer_refl)
    | apply (keeps_scrape_offers E outer outer_refl outer_trans outer_log outer_request
               outer_append) ].
Qed.

(** One attempt: a navigation, then steps that leave the files and the
    count of retries alone. *)
Lemma scrape_first_page_outer make model w r w' :
  scrape_first_page E make model w = (r, w') ->
  navigations w' = S (navigations w)
  /\ files w' = files w
  /\ retries_logged w' = retries_logged w.
Proof.
  unfold scrape_first_page, mbind, go_to_model_offers, logging.
  destruct (browse E (navigations w) make model) as [current_url|e].
  - destruct (get_page E (drop 6 current_url) _) as [[current_page_soup|e] w1] eqn:Hpage.
    + intros Hsingle. apply single_page_outer in Hsingle.
      apply (keeps_get_page E outer outer_refl outer_trans outer_log outer_request) in Hpage.
      destruct (outer_trans _ _ _ Hpage Hsingle) as (Hn & Hf & Hr).
      rewrite Hn, Hf, Hr. repeat split.
      unfold retries_logged. simpl. rewrite !List.filter_app, !length_app. simpl. lia.
    + intros H. inversion H; subst.
      apply (keeps_get_page E outer outer_refl outer_trans outer_log outer_request) in Hpage.
      destruct Hpage as (Hn & Hf & Hr). rewrite Hn, Hf, Hr. repeat split.
      unfold retries_logged. simpl. rewrite !List.filter_app, !length_app. simpl. lia.
  - intros H. inversion H; subst. repeat split.
Qed.

Lemma retries_logged_after_failure make model i e w :
  retries_logged (add_log (Warning_retrying make model i)
                    (add_log (Error_exception_in_process (getpid E) e) w))
  = S (retries_logged w).
Proof.
  unfold retries_logged. simpl. rewrite !List.filter_app, !length_app. simpl. lia.
Qed.

(** What the frame and the log hold is kept, and only added to, by every
    step below the retry loop. *)
Lemma grows_refl w : grows w w.
Proof. split; [reflexivity|]. split; exists []; symmetry; apply app_nil_r. Qed.

Lemma grows_trans a b c : grows a b -> grows b c -> grows a c.
Proof.
  intros (Hc1 & (r1 & Hr1) & (l1 & Hl1)) (Hc2 & (r2 & Hr2) & (l2 & Hl2)).
  split; [congruence|]. split.
  - exists (r1 ++ r2). rewrite Hr2, Hr1, <- app_assoc. reflexivity.
  - exists (l1 ++ l2). rewrite Hl2, Hl1, <- app_assoc. reflexivity.
Qed.

Lemma grows_log r w : grows w (add_log r w).
Proof.
  split; [reflexivity|]. split; [exists []; symmetry; apply app_nil_r | exists [r]; reflexivity].
Qed.

Lemma grows_request w : grows w (tick_request w).
Proof. exact (grows_refl w). Qed.

Lemma grows_navigation w : grows w (tick_navigation w).
Proof. exact (grows_refl w). Qed.

Lemma grows_append (w : world) (d : dict) (data : DataFrame) :
  loc_append (frame w) d = Ok data -> grows w (set_frame data w).
Proof.
  intros H. apply loc_append_Ok in H. destruct H as [Hc Hr].
  split; [exact Hc|]. split; [eexists; exact Hr | exists []; symmetry; apply app_nil_r].
Qed.

Lemma single_page_grows make model current_page_soup w r w' :
  single_page E make model current_page_soup w = (r, w') -> grows w w'.
Proof.
  revert w r w'. change (keeps grows (single_page E make model current_page_soup)).
  unfold single_page.
  repeat first
    [ apply (keeps_bind grows grows_trans); [|intros ?]
    | apply (keeps_lift grows grows_refl)
    | apply (keeps_ret grows grows_refl)
    | apply (keeps_scrape_offers E grows grows_refl grows_trans (fun r w _ => grows_log r w)
               grows_request grows_append) ].
Qed.

Lemma scrape_first_page_grows make model w r w' :
  scrape_first_page E make model w = (r, w') -> grows w w'.
Proof.
  unfold scrape_first_page, mbind, go_to_model_offers, logging.
  destruct (browse E (navigations w) make model) as [current_url|e].
  - pose proof (grows_trans _ _ _ (grows_navigation w)
                  (grows_trans _ _ _
                     (grows_log (Info_after_search make model current_url) _)
                     (grows_log (Info_getting_offers make model) _))) as Hstart.
    destruct (get_page E (drop 6 current_url) _) as [[current_page_soup|e] w1] eqn:Hpage;
      apply (keeps_get_page E grows grows_refl grows_trans (fun r w _ => grows_log r w)
               grows_request) in Hpage.
    + intros Hsingle. apply single_page_grows in Hsingle.
      eapply grows_trans; [exact Hstart|]. eapply grows_trans; [exact Hpage | exact Hsingle].
    + intros H. inversion H; subst. eapply grows_trans; [exact Hstart | exact Hpage].
  - intros H. inversion H; subst. apply grows_navigation.
Qed.

Lemma flush_frame w : frame (flush E w) = new_frame columns.
Proof. reflexivity. Qed.

(** A flush appends the rows of the frame to the partial file, after a
    header line or not. *)
Lemma flush_rows w :
  exists header_lines,
    (header_lines = [] \/ header_lines = [Header (df_columns (frame w))])
    /\ files (flush E w) !! temp_partial E
       = Some (default [] (files w !! temp_partial E)
               ++ header_lines ++ map Row (df_rows (frame w))).
Proof.
  unfold flush, to_csv. simpl. rewrite lookup_insert_eq.
  destruct (negb (path_exists (files w) (output_partial E))); eauto.
Qed.

(** The retry loop with room for [k] attempts, numbered from [i]: the
    first calls of [scrape_model] each ended in a [WebDriverException];
    then either the room is used up and the loop returns, or one more call
    is made, whose outcome ends the loop. *)
Lemma retry_loop_ending fuel k make model :
  forall i w,
    exists r w' failures w_last,
      retry_loop E (S fuel) (seq i k) make model w = Some (r, w')
      /\ driver_failures E (S fuel) make model i w failures w_last
      /\ navigations w_last = navigations w + failures
      /\ retries_logged w_last = retries_logged w + failures
      /\ files w_last = files w
      /\ grows w w_last
      /\ ((failures = k /\ r = Ok tt /\ w' = w_last)
          \/ (failures < k
              /\ exists r1 w1,
                   scrape_model E (S fuel) make model w_last = Some (r1, w1)
                   /\ navigations w1 = S (navigations w_last)
                   /\ retries_logged w1 = retries_logged w_last
                   /\ files w1 = files w_last
                   /\ grows w_last w1
                   /\ match r1 with
                      | Ok _ => (r, w') = try_flush E w1
                      | Raise e => e <> WebDriverException /\ r = Raise e /\ w' = w1
                      end)).
Proof.
  induction k as [|k IH]; intros i w.
  - exists (Ok tt), w, 0, w. cbn [seq retry_loop].
    split; [reflexivity|]. split; [constructor|]. split; [lia|]. split; [lia|].
    split; [reflexivity|]. split; [apply grows_refl|]. left. auto.
  - cbn [seq retry_loop]. rewrite scrape_model_first_page.
    destruct (scrape_first_page E make model w) as [[[]|e] w1] eqn:Hattempt.
    + pose proof (scrape_first_page_grows _ _ _ _ _ Hattempt) as Hg.
      pose proof (scrape_first_page_outer _ _ _ _ _ Hattempt) as (Hn & Hf & Hr).
      exists (fst (try_flush E w1)), (snd (try_flush E w1)), 0, w.
      split; [destruct (try_flush E w1); reflexivity|]. split; [constructor|].
      split; [lia|]. split; [lia|]. split; [reflexivity|]. split; [apply grows_refl|].
      right. split; [lia|]. exists (Ok tt), w1.
      rewrite scrape_model_first_page, Hattempt. split; [reflexivity|].
      split; [exact Hn|]. split; [exact Hr|]. split; [exact Hf|]. split; [exact Hg|].
      symmetry. apply surjective_pairing.
    + pose proof (scrape_first_page_grows _ _ _ _ _ Hattempt) as Hg.
      pose proof (scrape_first_page_outer _ _ _ _ _ Hattempt) as (Hn & Hf & Hr).
      destruct (decide (e = WebDriverException)) as [->|Hne].
      * destruct (IH (S i)
                    (add_log (Warning_retrying make model (i + 1))
                       (add_log (Error_exception_in_process (getpid E) WebDriverException) w1)))
          as (r & w' & failures & w_last & Hloop & Htrace & Hn' & Hr' & Hf' & Hg' & Hend).
        rewrite retries_logged_after_failure in Hr'.
        change (navigations w_last = navigations w1 + failures) in Hn'.
        change (files w_last = files w1) in Hf'.
        exists r, w', (S failures), w_last.
        split; [exact Hloop|].
        split; [econstructor; [rewrite scrape_model_first_page, Hattempt; reflexivity
                              | exact Htrace]|].
        split; [lia|]. split; [lia|]. split; [congruence|].
        split.
        { eapply grows_trans; [exact Hg|].
          eapply grows_trans; [|exact Hg'].
          eapply grows_trans; apply grows_log. }
        destruct Hend as [(-> & -> & ->)|(Hlt & Hlast)].
        -- left. auto.
        -- right. split; [lia | exact Hlast].
      * exists (Raise e), w1, 0, w.
        split; [reflexivity|]. split; [constructor|].
        split; [lia|]. split; [lia|]. split; [reflexivity|]. split; [apply grows_refl|].
        right. split; [lia|]. exists (Raise e), w1.
        rewrite scrape_model_first_page, Hattempt. split; [reflexivity|].
        split; [exact Hn|]. split; [exact Hr|]. split; [exact Hf|]. split; [exact Hg|].
        auto.
Qed.

(** What every run of the retry loop of a combination comes to. *)
Lemma retry_loop_bounds fuel make model w :
  exists r w',
    retry_loop E (S fuel) (range 3) make model w = Some (r, w')
    /\ navigations w + 1 <= navigations w' <= navigations w + 3
    /\ r <> Raise WebDriverException
    /\ (forall path, path <> temp_partial E -> files w' !! path = files w !! path)
    /\ (exists added,
          default [] (files w' !! temp_partial E)
          = default [] (files w !! temp_partial E) ++ added)
    /\ (exists records, log w' = log w ++ records).
Proof.
  destruct (retry_loop_ending fuel 3 make model 0 w)
    as (r & w' & failures & w_last & Hloop & _ & Hn & _ & Hf & Hg & Hend).
  exists r, w'. split; [exact Hloop|].
  destruct Hend as [(-> & -> & ->)|(Hlt & r1 & w1 & _ & Hn1 & _ & Hf1 & Hg1 & Hlast)].
  - split; [lia|]. split; [discriminate|]. rewrite Hf.
    split; [reflexivity|]. split; [exists []; symmetry; apply app_nil_r | apply Hg].
  - pose proof (grows_trans _ _ _ Hg Hg1) as (_ & _ & Hlog).
    assert (Hsame : files w1 = files w) by congruence.
    destruct r1 as [[]|e].
    + unfold try_flush in Hlast. destruct (can_append E (temp_partial E)).
      * injection Hlast as -> ->.
        change (navigations (flush E w1)) with (navigations w1).
        change (log (flush E w1)) with (log w1).
        split; [lia|]. split; [discriminate|]. split; [|split; [|exact Hlog]].
        -- intros path Hpath. unfold flush, to_csv. cbn [files set_frame set_files].
           rewrite lookup_insert_ne by congruence. rewrite Hsame. reflexivity.
        -- destruct (flush_rows w1) as (header_lines & _ & Hrows).
           rewrite Hrows, Hsame. cbn [default from_option id]. eauto.
      * injection Hlast as -> ->.
        split; [lia|]. split; [discriminate|]. rewrite Hsame.
        split; [reflexivity|]. split; [exists []; symmetry; apply app_nil_r | exact Hlog].
    + destruct Hlast as (Hne & -> & ->).
      split; [lia|]. split; [congruence|]. rewrite Hsame.
      split; [reflexivity|]. split; [exists []; symmetry; apply app_nil_r | exact Hlog].
Qed.

End Worker.

(** C3. With the loop over the pages given room for at least one page, the
    retry loop of a combination always ends, after one, two or three calls
    of [scrape_model]. The first calls each ended in a
    [WebDriverException] and were each logged and followed by the next
    call. The loop ends in one of two ways. Either three calls have failed
    so: the combination is given up, nothing is written and nothing is
    raised. Or a call ended otherwise, and no further call is made: when it
    returned, the rows of the frame, which are those the frame had with the
    rows collected since added, are appended to the partial file and the
    frame is replaced by an empty one (if the file cannot be opened the
    write raises [OSError] instead); when it raised another exception, that
    exception is not caught. The worker goes on with the next combination
    when nothing is raised, and stops at the exception otherwise. *)
Theorem worker_tries_a_combination_three_times
  (E : environment) (fuel : nat) (make model : str) (rest : list (str * str)) (w : world) :
  0 < fuel ->
  exists r w' attempts failures w_last,
    scrape_combination E fuel make model w = Some (r, w')
    /\ driver_failures E fuel make model 0 w failures w_last
    /\ navigations w' = navigations w + attempts
    /\ retries_logged w' = retries_logged w + failures
    /\ 1 <= attempts <= 3
    /\ ((attempts = 3 /\ failures = 3 /\ r = Ok tt /\ w' = w_last /\ files w' = files w)
        \/ (failures = attempts - 1
            /\ exists r1 w1,
                 scrape_model E fuel make model w_last = Some (r1, w1)
                 /\ files w1 = files w
                 /\ match r1 with
                    | Ok _ =>
                        (exists collected,
                           df_rows (frame w1) = df_rows (frame w) ++ collected)
                        /\ if can_append E (temp_partial E)
                           then r = Ok tt /\ w' = flush E w1
                                /\ frame w' = new_frame columns
                                /\ exists header_lines,
                                     files w' !! temp_partial E
                                     = Some (default [] (files w !! temp_partial E)
                                             ++ header_lines
                                             ++ map Row (df_rows (frame w1)))
                           else r = Raise OSError /\ w' = w1
                    | Raise e => e <> WebDriverException /\ r = Raise e /\ w' = w1
                    end))
    /\ (r = Ok tt ->
        scrape_combinations E fuel ((make, model) :: rest) w
        = scrape_combinations E fuel rest w')
    /\ (forall e, r = Raise e ->
        scrape_combinations E fuel ((make, model) :: rest) w = Some (Raise e, w')).
Proof.
  intros Hfuel. destruct fuel as [|fuel]; [lia|].
  destruct (retry_loop_ending E fuel 3 make model 0 w)
    as (r & w' & failures & w_last & Hloop & Htrace & Hn & Hr & Hf & Hg & Hend).
  assert (Hnext : (r = Ok tt ->
                   scrape_combinations E (S fuel) ((make, model) :: rest) w
                   = scrape_combinations E (S fuel) rest w')
                  /\ (forall e, r = Raise e ->
                      scrape_combinations E (S fuel) ((make, model) :: rest) w
                      = Some (Raise e, w'))).
  { split; [intros -> | intros e ->]; cbn [scrape_combinations];
      unfold scrape_combination; change (range 3) with (seq 0 3); rewrite Hloop; reflexivity. }
  destruct Hend as [(-> & -> & ->)|(Hlt & r1 & w1 & Hcall & Hn1 & Hr1 & Hf1 & Hg1 & Hlast)].
  - exists (Ok tt), w_last, 3, 3, w_last.
    split; [exact Hloop|]. split; [exact Htrace|]. split; [exact Hn|]. split; [exact Hr|].
    split; [lia|]. split; [|exact Hnext]. left. auto.
  - assert (Hsame : files w1 = files w) by congruence.
    exists r, w', (S failures), failures, w_last.
    split; [exact Hloop|]. split; [exact Htrace|].
    assert (Hcount : navigations w' = navigations w + S failures
                     /\ retries_logged w' = retries_logged w + failures).
    { destruct r1 as [[]|e].
      - unfold try_flush in Hlast. destruct (can_append E (temp_partial E));
          injection Hlast as -> ->.
        + change (navigations (flush E w1)) with (navigations w1).
          change (retries_logged (flush E w1)) with (retries_logged w1). lia.
        + lia.
      - destruct Hlast as (_ & _ & ->). lia. }
    destruct Hcount as [Hcn Hcr].
    split; [exact Hcn|]. split; [exact Hcr|]. split; [lia|]. split; [|exact Hnext].
    right. split; [lia|]. exists r1, w1. split; [exact Hcall|]. split; [exact Hsame|].
    destruct r1 as [[]|e]; [|exact Hlast].
    split; [apply (grows_trans _ _ _ Hg Hg1)|].
    unfold try_flush in Hlast. destruct (can_append E (temp_partial E));
      injection Hlast as -> ->; [|auto].
    split; [reflexivity|]. split; [reflexivity|]. split; [reflexivity|].
    destruct (flush_rows E w1) as (header_lines & _ & Hrows).
    exists header_lines. rewrite Hrows, Hsame. reflexivity.
Qed.

(** ** The header of the partial file *)

Lemma partial_paths_differ (E : environment) : temp_partial E <> output_partial E.
Proof.
  unfold temp_partial, output_partial. intros Heq.
  apply (f_equal (fun l : str => l !! 2)) in Heq. vm_compute in Heq. discriminate Heq.
Qed.

(** As long as nothing else has created the file under [./output], every
    flush writes the header line again, and does not create that file. *)
Lemma flush_writes_header (E : environment) (w : world) :
  files w !! output_partial E = None ->
  files (flush E w) !! temp_partial E
  = Some (default [] (files w !! temp_partial E)
          ++ Header (df_columns (frame w)) :: map Row (df_rows (frame w)))
  /\ files (flush E w) !! output_partial E = None.
Proof.
  intros Hnone. unfold flush, to_csv, path_exists. simpl.
  rewrite lookup_insert_eq.
  rewrite bool_decide_eq_false_2 by (rewrite Hnone; intros [? ?]; discriminate).
  split; [reflexivity|].
  rewrite lookup_insert_ne by apply partial_paths_differ. exact Hnone.
Qed.

(** C9. A worker that scrapes two combinations, each at the first attempt
    and each with two offers, flushes twice to its partial file; the file
    then holds the header, two rows, the header once more and two rows. *)
Theorem partial_file_repeats_the_header :
  exists w' lines,
    scrape_worker Fixture.three_pages 1
      [(py "Audi", py "A4"); (py "Audi", py "A6")] Fixture.start = Some (Ok tt, w')
    /\ files w' !! temp_partial Fixture.three_pages = Some lines
    /\ map is_header lines = [true; false; false; true; false; false]
    /\ lines !! 0 = Some (Header columns)
    /\ lines !! 3 = Some (Header columns).
Proof.
  eexists. eexists. split; [vm_compute; reflexivity|].
  split; [vm_compute; reflexivity|].
  repeat split; vm_compute; reflexivity.
Qed.

(** ** The distribution of the work *)

Section DistributionFacts.

Context {A : Type}.















End DistributionFacts.

(** Below 80 combinations the chunk size is 0 and [range] refuses the step. *)
Lemma model_subsets_of_a_short_list {A : Type} (all_models : list A) :
  chunk_size_of (length all_models) = 0 -> model_subsets all_models = Raise ValueError.
Proof. intros H. unfold model_subsets, range3. rewrite H. reflexivity. Qed.


(** ** The merge *)

(** C1. The merge step of [main] never gets to [drop_duplicates]: on any
    frame it raises, at the renaming when the frame has not 26 columns and
    otherwise at [remove], which a pandas [Index] does not have (on a
    Python list the same call would raise [ValueError], no column being
    equal to the list [['Model', 'Views']]). On a frame holding one listing
    twice and a third row differing in price only, no deduplicated frame
    is produced, while [drop_duplicates] over all columns but [Model] and
    [Views] would keep the first and the third row. *)
Theorem merge_raises_before_deduplicating :
  merge_dedup MergeFixture.concatenated = Raise AttributeError
  /\ (forall final_df deduplicated, merge_dedup final_df <> Ok deduplicated)
  /\ remove (PyList (map VStr english_columns)) (VList [VStr (py "Model"); VStr (py "Views")])
     = Raise ValueError
  /\ (renamed <- set_columns MergeFixture.concatenated english_columns ;;
      drop_duplicates intended_identity_columns renamed)%result
     = Ok (Frame english_columns
                 [MergeFixture.listing "A4" "10 000 лв." "5";
                  MergeFixture.listing "A4" "12 000 лв." "5"]).
Proof.
  split; [vm_compute; reflexivity|]. split; [|split; vm_compute; reflexivity].
  intros final_df deduplicated. unfold merge_dedup, bind, remove.
  destruct (set_columns final_df english_columns); discriminate.
Qed.

(** ** The theorems at work on the fixtures *)

(** The third request is answered: [get_page] returns its page. *)
Lemma get_page_retries_three_times_witness :
  fst (get_page Sites.flaky (Fixture.offer_url "1") Fixture.start)
  = Ok (Some Fixture.offer_page)
  /\ requests_made (snd (get_page Sites.flaky (Fixture.offer_url "1") Fixture.start))
     - requests_made Fixture.start = 2 + 1.
Proof.
  destruct (get_page_retries_three_times Sites.flaky (Fixture.offer_url "1") Fixture.start)
    as (_ & Hpage & _).
  apply (Hpage 2 Fixture.offer_page).
  - lia.
  - intros j Hj. destruct j as [|[|j]]; [reflexivity | reflexivity | lia].
  - vm_compute. reflexivity.
Defined.


(** Two driver failures, then a scrape that goes through: three
    navigations, two retries logged, and the two offers in the partial file. *)
Lemma worker_tries_a_combination_three_times_witness :
  0 < 1
  /\ exists w',
       scrape_combination Sites.flaky 1 (py "Audi") (py "A4") Fixture.start = Some (Ok tt, w')
       /\ navigations w' = 3
       /\ retries_logged w' = 2
       /\ frame w' = new_frame columns
       /\ length <$> (files w' !! temp_partial Sites.flaky) = Some 3.
Proof.
  split; [lia|].
  destruct (worker_tries_a_combination_three_times Sites.flaky 1 (py "Audi") (py "A4") []
              Fixture.start ltac:(lia))
    as (r & w' & attempts & failures & w_last & Hloop & _).
  pose proof (f_equal (fun o => match o with Some (r, _) => r | None => Raise OtherError end)
                Hloop) as Hr.
  vm_compute in Hr. subst r.
  exists w'. split; [exact Hloop|].
  pose proof (f_equal (fun o => match o with
                                | Some (_, w) =>
                                    (navigations w, retries_logged w, frame w,
                                     length <$> (files w !! temp_partial Sites.flaky))
                                | None => (0, 0, new_frame [], None)
                                end) Hloop) as Hw.
  cbv beta iota in Hw.
  assert (Hcalc : (navigations w', retries_logged w', frame w',
                   length <$> (files w' !! temp_partial Sites.flaky))
                  = (3, 2, new_frame columns, Some 3)).
  { rewrite <- Hw. vm_compute. reflexivity. }
  injection Hcalc as -> -> -> ->. repeat split.
Defined.

(** A page without main details is skipped. *)
Lemma missing_main_details_skip_the_listing_witness :
  let fetched :=
    get_page Sites.bare (Fixture.offer_url "1")
      (add_log (Info_scraping_offer (Fixture.offer_url "1")) Fixture.start) in
  scrape_offer_data Sites.bare (py "Audi") (py "A4") (Fixture.offer_url "1") Fixture.start
  = (Ok tt, add_log Warning_no_main_car_details (snd fetched))
  /\ frame (add_log Warning_no_main_car_details (snd fetched)) = frame Fixture.start.
Proof.
  intros fetched.
  destruct (missing_main_details_skip_the_listing Sites.bare (py "Audi") (py "A4")
              (Fixture.offer_url "1") [] Fixture.start (snd fetched) Fixture.bare_page)
    as (Hskip & Hframe & _).
  - vm_compute. reflexivity.
  - vm_compute. reflexivity.
  - split; [exact Hskip | exact Hframe].
Defined.


(** With the network down the offer is skipped. *)
Lemma unavailable_offer_page_is_skipped_witness :
  (forall j, j < 3 ->
     answer Sites.down (Fixture.offer_url "1") Fixture.start j = Throws RequestException)
  /\ fst (scrape_offer_data Sites.down (py "Audi") (py "A4") (Fixture.offer_url "1")
            Fixture.start) = Ok tt
  /\ frame (snd (scrape_offer_data Sites.down (py "Audi") (py "A4") (Fixture.offer_url "1")
                   Fixture.start)) = frame Fixture.start.
Proof.
  assert (H : forall j, j < 3 ->
     answer Sites.down (Fixture.offer_url "1") Fixture.start j = Throws RequestException)
    by (intros; reflexivity).
  split; [exact H|].
  destruct (unavailable_offer_page_is_skipped Sites.down (py "Audi") (py "A4")
              (Fixture.offer_url "1") Fixture.start H)
    as (_ & _ & Hdone & Hframe & _).
  split; [rewrite Hdone; reflexivity | exact Hframe].
Defined.

(** * Further properties of the scraper *)

(** ** The result pages *)

(** X1. [has_next_page] never answers [True]: on a tag it answers [False],
    and on [None] (a page without a current-page link) it raises
    [AttributeError]. *)
Theorem has_next_page_is_never_true (current_page_element : option element) :
  has_next_page current_page_element
  = match current_page_element with
    | Some _ => Ok false
    | None => Raise AttributeError
    end.
Proof.
  destruct current_page_element as [current|]; [apply has_next_page_false | reflexivity].
Qed.

(** X2. The [while True] loop of [scrape_model] always ends, in its first
    round: whatever the site answers, a run with room for one page ends,
    and more room changes nothing. *)
Theorem scrape_model_ends_in_the_first_round
  (E : environment) (fuel : nat) (make model : str) (w : world) :
  is_Some (scrape_model E 1 make model w)
  /\ scrape_model E (S fuel) make model w = scrape_model E 1 make model w.
Proof.
  rewrite !scrape_model_first_page. split; [eauto | reflexivity].
Qed.

(** The links of a page that pass [is_offer_link] all have an [href]. *)
Lemma hrefs_of_offer_links (tags : list element) :
  Forall (fun t => is_offer_link t = true) tags ->
  exists links,
    hrefs tags = Ok links
    /\ length links = length tags
    /\ Forall (fun link =>
                 startswith link (py "//www.mobile.bg/pcgi/mobile.cgi?act=4&") = true) links.
Proof.
  induction 1 as [|t tags Ht _ (links & Hrefs & Hlen & Hall)].
  - exists []. repeat split. constructor.
  - unfold is_offer_link in Ht. apply andb_true_iff in Ht. destruct Ht as [Ht _].
    apply andb_true_iff in Ht. destruct Ht as [Ht _].
    apply andb_true_iff in Ht. destruct Ht as [_ Ht].
    cbn [hrefs]. unfold get_item.
    destruct (attrs t !! py "href") as [href|]; [|discriminate Ht].
    rewrite Hrefs. exists (href :: links). cbn [bind length].
    split; [reflexivity|]. split; [congruence|]. constructor; assumption.
Qed.

Lemma offer_links_found (page : soup) :
  exists links, hrefs (find_all is_offer_link page) = Ok links.
Proof.
  destruct (hrefs_of_offer_links (find_all is_offer_link page)) as (links & Hlinks & _).
  - unfold find_all. apply Forall_forall. intros t Ht.
    apply list_elem_of_In, filter_In in Ht. apply Ht.
  - exists links. exact Hlinks.
Qed.

(** X3. Reading the offer links of a result page never raises: every tag
    that [is_offer_link] lets through has an [href], and each link read
    starts with the address of an offer. *)
Theorem offer_links_are_read_without_error (page : soup) :
  exists links,
    hrefs (find_all is_offer_link page) = Ok links
    /\ length links = length (find_all is_offer_link page)
    /\ Forall (fun link =>
                 startswith link (py "//www.mobile.bg/pcgi/mobile.cgi?act=4&") = true) links.
Proof.
  apply hrefs_of_offer_links. unfold find_all. apply Forall_forall. intros t Ht.
  apply list_elem_of_In, filter_In in Ht. apply Ht.
Qed.

(** ** The worker *)

(** X4. When the browser lands on the offers of a combination but the
    three requests for its result page all fail, [scrape_model] raises
    [AttributeError] on the [None] it got; this is no driver error, so the
    worker does not try again: it stops with that exception after one
    navigation and three requests, the combinations left are not scraped,
    and the frame and the files are as before. *)
Theorem unavailable_result_page_stops_the_worker
  (E : environment) (fuel : nat) (make model current_url : str)
  (rest : list (str * str)) (w : world) :
  browse E (navigations w) make model = Landed current_url ->
  (forall j, j < 3 -> answer E (drop 6 current_url) w j = Throws RequestException) ->
  exists w',
    scrape_combinations E (S fuel) ((make, model) :: rest) w = Some (Raise AttributeError, w')
    /\ navigations w' = S (navigations w)
    /\ requests_made w' = requests_made w + 3
    /\ frame w' = frame w
    /\ files w' = files w.
Proof.
  intros Hland Hfail.
  cbn [scrape_combinations]. unfold scrape_combination.
  change (range 3) with [0; 1; 2]. cbn [retry_loop].
  rewrite scrape_model_first_page.
  unfold scrape_first_page, mbind, go_to_model_offers, logging. rewrite Hland.
  set (w1 := add_log (Info_getting_offers make model)
               (add_log (Info_after_search make model current_url) (tick_navigation w))).
  destruct (get_page_loop_exhausted E (range 3) (drop 6 current_url) w1 Hfail) as [Hr Hm].
  fold (get_page E (drop 6 current_url) w1) in Hr, Hm.
  destruct (get_page E (drop 6 current_url) w1) as [r w2] eqn:Hpage.
  cbn [fst snd] in Hr, Hm. subst r.
  apply get_page_same_data in Hpage. destruct Hpage as (Hf & Hfs & Hn).
  unfold single_page, mbind, lift, deref.
  destruct (decide (AttributeError = WebDriverException)) as [Heq|_]; [discriminate Heq|].
  exists w2. split; [reflexivity|].
  rewrite Hn, Hm, Hf, Hfs. repeat split.
Qed.

(** X5. A worker always gets to the end of its loop over a chunk or stops
    at an exception that is not a [WebDriverException]; it has then driven
    the browser to at most three times as many searches as the chunk has
    combinations, and when it got to the end, to at least one search for
    each combination. *)
Theorem worker_attempts_are_bounded
  (E : environment) (fuel : nat) (models : list (str * str)) (w : world) :
  exists r w',
    scrape_combinations E (S fuel) models w = Some (r, w')
    /\ navigations w <= navigations w' <= navigations w + 3 * length models
    /\ r <> Raise WebDriverException
    /\ (r = Ok tt -> navigations w + length models <= navigations w').
Proof.
  revert w. induction models as [|[make model] rest IH]; intros w.
  - exists (Ok tt), w. cbn [scrape_combinations length]. repeat split; try lia. discriminate.
  - cbn [scrape_combinations]. unfold scrape_combination.
    destruct (retry_loop_bounds E fuel make model w) as (r & w1 & Hloop & Hn & Hne & _).
    rewrite Hloop. destruct r as [[]|e].
    + destruct (IH w1) as (r' & w' & Hrest & Hbound & Hne' & Hok).
      exists r', w'. split; [exact Hrest|]. cbn [length].
      split; [lia|]. split; [exact Hne'|]. intros Hr. specialize (Hok Hr). lia.
    + exists (Raise e), w1. split; [reflexivity|]. cbn [length].
      split; [lia|]. split; [exact Hne|]. discriminate.
Qed.

(** ** The chunks *)

(** X6. [main] cannot cut its chunks when there are fewer than 80
    combinations: the chunk size is then 0 and [range] raises [ValueError];
    from 80 combinations on the chunks are cut. *)
Theorem fewer_than_80_combinations_raise {A : Type} (all_models : list A) :
  model_subsets all_models = Raise ValueError <-> length all_models < 80.
Proof.
  unfold model_subsets, range3, chunk_size_of.
  change (NUM_PROCESSES * 10) with 80.
  destruct (length all_models / 80 =? 0) eqn:Hk.
  - apply Nat.eqb_eq, Nat.div_small_iff in Hk; [|lia]. split; [intros _; exact Hk | reflexivity].
  - apply Nat.eqb_neq in Hk. cbn [bind]. split; [discriminate|].
    intros Hlt. exfalso. apply Hk, Nat.div_small_iff; lia.
Qed.

(** X7. When the chunks are cut there are more of them than processes: at
    least 80 and at most 159. *)
Theorem chunks_outnumber_the_processes {A : Type} (all_models : list A)
  (chunks : list (list A)) :
  model_subsets all_models = Ok chunks ->
  NUM_PROCESSES * 10 <= length chunks <= 2 * (NUM_PROCESSES * 10) - 1.
Proof.
  unfold model_subsets, range3, chunk_size_of.
  change (NUM_PROCESSES * 10) with 80.
  set (n := length all_models). set (k := n / 80).
  destruct (k =? 0) eqn:Hk; [discriminate|]. apply Nat.eqb_neq in Hk.
  cbn [bind]. intros H. injection H as <-.
  rewrite !length_map, length_seq.
  pose proof (Nat.div_mod n 80 ltac:(lia)) as Hdm.
  pose proof (Nat.mod_upper_bound n 80 ltac:(lia)) as Hub.
  fold k in Hdm. split.
  - apply Nat.div_le_lower_bound; [exact Hk | lia].
  - assert ((n - 0 + k - 1) / k < 160); [|lia].
    apply Nat.Div0.div_lt_upper_bound; nia.
Qed.

(** ** The feature groups, label by label *)

Lemma filter_any_tag (l : list element) : List.filter any_tag l = l.
Proof. induction l as [|x l IH]; simpl; [|rewrite IH]; reflexivity. Qed.

(** The body of the loop either raises, when no tag follows the label, or
    sets the key of the label to a string that does not depend on the
    dictionary. *)
Lemma parse_feature_label_cases (label : element) :
  match find_next_sibling any_tag label with
  | None => forall t, parse_feature_label label t = Raise AttributeError
  | Some _ => exists v, forall t, parse_feature_label label t = Ok (<[text label := Some v]> t)
  end.
Proof.
  unfold parse_feature_label.
  destruct (find_next_sibling any_tag label) as [next_sibling|]; cbn [deref bind].
  - eexists. intros t. reflexivity.
  - reflexivity.
Qed.

(** When the tag after the label is a [div], the walk starts there. *)
Lemma parse_feature_label_div (label : element) (t : dict) :
  name <$> find_next_sibling any_tag label = Some (py "div") ->
  parse_feature_label label t
  = Ok (<[text label :=
           Some (join (py ", ") (feature_walk (sibling_tags (next_siblings label))))]> t).
Proof.
  unfold parse_feature_label, find_next_sibling. rewrite filter_any_tag.
  destruct (sibling_tags (next_siblings label)) as [|first rest] eqn:Hsib; [discriminate|].
  cbn [head fmap option_fmap option_map deref bind]. intros Hdiv. injection Hdiv as Hdiv.
  unfold str_eqb at 1. rewrite bool_decide_eq_true_2 by exact Hdiv. cbn [negb].
  unfold feature_list_from. rewrite (sibling_tags_chain _ _ _ Hsib). reflexivity.
Qed.

Lemma parse_feature_labels_keys (labels : list element) (target target' : dict) :
  parse_feature_labels labels target = Ok target' ->
  (forall k, k ∉ map text labels -> target' !! k = target !! k)
  /\ (forall l, l ∈ labels -> exists s, target' !! text l = Some (Some s)).
Proof.
  revert target. induction labels as [|label rest IH]; intros target H; cbn [parse_feature_labels] in H.
  - injection H as <-. split; [reflexivity|]. intros l Hl. inversion Hl.
  - pose proof (parse_feature_label_cases label) as Hcase.
    destruct (find_next_sibling any_tag label).
    2:{ rewrite Hcase in H. discriminate H. }
    destruct Hcase as (v & Hv). rewrite Hv in H. cbn [bind] in H.
    destruct (IH _ H) as [Hother Hset]. split.
    + intros k Hk. rewrite Hother.
      * apply lookup_insert_ne. intros <-. apply Hk. left.
      * intros Hin. apply Hk. right. exact Hin.
    + intros l Hl. apply elem_of_cons in Hl. destruct Hl as [->|Hl]; [|apply Hset, Hl].
      destruct (decide (text label ∈ map text rest)) as [Hin|Hnin].
      * apply list_elem_of_fmap in Hin. destruct Hin as (l' & -> & Hl'). apply Hset, Hl'.
      * rewrite Hother by exact Hnin. rewrite lookup_insert_eq. eauto.
Qed.

(** X8. When the feature parser returns, it has set the keys that are texts
    of [extra_cat] labels, each to a string (never to [None]), and has left
    every other key of the dictionary as it was. *)
Theorem features_set_only_the_keys_of_their_labels
  (offer_soup : soup) (target target' : dict) :
  parse_additional_car_features offer_soup target = Ok target' ->
  let labels := find_all (by_name_class (py "label") (py "extra_cat")) offer_soup in
  (forall k, k ∉ map text labels -> target' !! k = target !! k)
  /\ (forall l, l ∈ labels -> exists s, target' !! text l = Some (Some s)).
Proof. intros H labels. apply parse_feature_labels_keys, H. Qed.

Lemma parse_feature_labels_raise (labels : list element) (target : dict) :
  (parse_feature_labels labels target = Raise AttributeError
   <-> exists l, l ∈ labels /\ find_next_sibling any_tag l = None)
  /\ (forall e, parse_feature_labels labels target = Raise e -> e = AttributeError).
Proof.
  revert target. induction labels as [|label rest IH]; intros target; cbn [parse_feature_labels].
  - split; [split|]; [discriminate | intros (l & Hl & _); inversion Hl | discriminate].
  - pose proof (parse_feature_label_cases label) as Hcase.
    destruct (find_next_sibling any_tag label) as [next_sibling|] eqn:Hnext.
    + destruct Hcase as (v & Hv). rewrite Hv. cbn [bind].
      destruct (IH (<[text label := Some v]> target)) as [Hiff Honly].
      split; [|exact Honly]. rewrite Hiff. split.
      * intros (l & Hl & Hnone). exists l. split; [right; exact Hl | exact Hnone].
      * intros (l & Hl & Hnone). apply elem_of_cons in Hl. destruct Hl as [->|Hl].
        -- congruence.
        -- exists l. split; assumption.
    + rewrite Hcase. cbn [bind]. split; [split|].
      * intros _. exists label. split; [left | exact Hnext].
      * reflexivity.
      * intros e He. congruence.
Qed.

(** X9. The feature parser raises exactly when some [extra_cat] label of
    the page has no tag after it in its parent, and what it raises is
    [AttributeError]; nothing in [scrape_offer_data] catches it. *)
Theorem features_raise_for_a_label_without_a_next_tag (offer_soup : soup) (target : dict) :
  let labels := find_all (by_name_class (py "label") (py "extra_cat")) offer_soup in
  (parse_additional_car_features offer_soup target = Raise AttributeError
   <-> exists l, l ∈ labels /\ find_next_sibling any_tag l = None)
  /\ (forall e, parse_additional_car_features offer_soup target = Raise e ->
      e = AttributeError).
Proof. intros labels. apply parse_feature_labels_raise. Qed.

Lemma parse_feature_labels_div (labels : list element) (target : dict) :
  NoDup (map text labels) ->
  Forall (fun l => name <$> find_next_sibling any_tag l = Some (py "div")) labels ->
  exists target',
    parse_feature_labels labels target = Ok target'
    /\ forall l, l ∈ labels ->
         target' !! text l
         = Some (Some (join (py ", ") (feature_walk (sibling_tags (next_siblings l))))).
Proof.
  revert target. induction labels as [|label rest IH]; intros target Hnodup Hdiv.
  - exists target. split; [reflexivity|]. intros l Hl. inversion Hl.
  - cbn [map] in Hnodup. apply NoDup_cons in Hnodup. destruct Hnodup as [Hfresh Hnodup].
    inversion Hdiv as [|? ? Hlabel Hrest]; subst.
    cbn [parse_feature_labels]. rewrite (parse_feature_label_div label target Hlabel).
    cbn [bind].
    destruct (IH (<[text label :=
                     Some (join (py ", ") (feature_walk (sibling_tags (next_siblings label))))]>
                    target) Hnodup Hrest) as (target' & Hparse & Hvalues).
    exists target'. split; [exact Hparse|].
    intros l Hl. apply elem_of_cons in Hl. destruct Hl as [->|Hl]; [|apply Hvalues, Hl].
    destruct (parse_feature_labels_keys _ _ _ Hparse) as [Hother _].
    rewrite Hother by exact Hfresh. apply lookup_insert_eq.
Qed.

(** X10. On a page whose [extra_cat] labels have different texts and are
    each followed by a [div] as the next tag, the feature parser returns,
    and the field of each label holds the texts of the tags after the
    label up to the next [label] tag or the end of the parent, each without
    its first two characters and trimmed, joined by a comma and a space. *)
Theorem feature_groups_get_their_values (offer_soup : soup) (target : dict) :
  let labels := find_all (by_name_class (py "label") (py "extra_cat")) offer_soup in
  NoDup (map text labels) ->
  Forall (fun l => name <$> find_next_sibling any_tag l = Some (py "div")) labels ->
  exists target',
    parse_additional_car_features offer_soup target = Ok target'
    /\ forall l, l ∈ labels ->
         target' !! text l
         = Some (Some (join (py ", ") (feature_walk (sibling_tags (next_siblings l))))).
Proof. intros labels. apply parse_feature_labels_div. Qed.

(** ** The record of an offer, field by field *)

(** With the list of main details found, the main-details step returns a
    dictionary and leaves the world as it is. *)
Lemma parse_main_car_details_present (page : soup) (ul : element) (target : dict) (w : world) :
  find (by_name_class (py "ul") (py "dilarData")) page = Some ul ->
  exists parsed_data, parse_main_car_details (Some page) target w = (Ok parsed_data, w).
Proof.
  intros Hul. unfold parse_main_car_details, main_car_details_html_list.
  cbn [deref bind]. rewrite Hul. cbn [deref bind]. eexists. reflexivity.
Qed.

(** What [finish_offer] has found and done when it returns. *)
Lemma finish_offer_Ok make model page parsed_data w w' :
  finish_offer make model (Some page) parsed_data w = (Ok tt, w') ->
  exists h1 price views region_city_data features,
    find (by_name (py "h1")) page = Some h1
    /\ find (by_name_id (py "span") (py "details_price")) page = Some price
    /\ find (by_name_class (py "span") (py "advact")) page = Some views
    /\ parse_additional_car_features page
         (<[py "Посещения" := Some (text views)]>
            (<[py "Населено място [Държава]" := part region_city_data 1]>
               (<[py "Област [Извън страната]" := part region_city_data 0]>
                  (<[py "Цена [лв./EUR]" := Some (strip (text price))]>
                     (<[py "Модел" := Some (strip model)]>
                        (<[py "Марка" := Some (strip make)]>
                           (<[py "Заглавие" := Some (strip (text h1))]> parsed_data)))))))
       = Ok features
    /\ df_rows (frame w')
       = df_rows (frame w) ++ [map (cell_of (fill_missing features)) (df_columns (frame w))].
Proof.
  unfold finish_offer, region_city, mbind, lift, logging, ret, append_row.
  cbv beta iota delta [deref]. intros H.
  destruct (find (by_name (py "h1")) page) as [h1|]; [|discriminate H].
  destruct (find (by_name_id (py "span") (py "details_price")) page) as [price|];
    [|discriminate H].
  destruct (find (by_name_class (py "div") (py "adress")) page) as [adress|];
    (destruct (find (by_name_class (py "span") (py "advact")) page) as [views|];
     [|discriminate H]);
    match type of H with
    | context [parse_additional_car_features page ?d] =>
        destruct (parse_additional_car_features page d) as [features|] eqn:Hfeatures;
        [|discriminate H]
    end;
    match type of H with
    | context [loc_append ?f ?d] =>
        destruct (loc_append f d) as [data|] eqn:Happend; [|discriminate H]
    end;
    injection H as <-; apply loc_append_Ok in Happend; destruct Happend as [_ Hrows];
    eexists h1, price, views, _, features;
    (split; [reflexivity|]); (split; [reflexivity|]); (split; [reflexivity|]);
    (split; [exact Hfeatures | exact Hrows]).
Qed.

(** X11. An offer page that has its main-details list but lacks the title
    ([h1]), the price node or the views node makes [scrape_offer_data] raise
    [AttributeError]: nothing is caught, no row is added, and the files are
    as before. *)
Theorem offer_without_title_price_or_views_raises
  (E : environment) (make model offer_url : str) (w w1 : world) (page : soup) (ul : element) :
  get_page E offer_url (add_log (Info_scraping_offer offer_url) w) = (Ok (Some page), w1) ->
  find (by_name_class (py "ul") (py "dilarData")) page = Some ul ->
  find (by_name (py "h1")) page = None
  \/ find (by_name_id (py "span") (py "details_price")) page = None
  \/ find (by_name_class (py "span") (py "advact")) page = None ->
  let done := scrape_offer_data E make model offer_url w in
  fst done = Raise AttributeError
  /\ frame (snd done) = frame w
  /\ files (snd done) = files w.
Proof.
  intros Hpage Hul Hmissing done. subst done. rewrite scrape_offer_data_eq, Hpage.
  destruct (parse_main_car_details_present page ul ∅ w1 Hul) as (parsed_data & ->).
  apply get_page_same_data in Hpage. destruct Hpage as (Hf & Hfs & _).
  change (frame w1 = frame w) in Hf. change (files w1 = files w) in Hfs.
  unfold finish_offer, region_city, mbind, lift, logging, ret, append_row.
  cbv beta iota delta [deref].
  destruct (find (by_name (py "h1")) page) as [h1|]; [|auto].
  destruct (find (by_name_id (py "span") (py "details_price")) page) as [price|]; [|auto].
  destruct (find (by_name_class (py "span") (py "advact")) page) as [views|].
  { destruct Hmissing as [H|[H|H]]; discriminate H. }
  destruct (find (by_name_class (py "div") (py "adress")) page); auto.
Qed.

Lemma record_of_field (f : str -> cell) (cols : list str) (c : str) :
  c ∈ cols -> (c, f c) ∈ record_of cols (map f cols).
Proof.
  unfold record_of. induction cols as [|c' cols IH]; intros Hc; [inversion Hc|].
  cbn [map combine]. apply elem_of_cons in Hc. destruct Hc as [->|Hc].
  - left.
  - right. apply IH, Hc.
Qed.

(** X12. In the record added for an offer, the make and the model are the
    arguments of the call, trimmed, whatever the page says under these
    labels in its main details; the title and the price are the trimmed
    texts of their nodes, and the views are the text of their node as it
    is. This holds when no [extra_cat] label of the page has one of these
    five column names as its text. *)
Theorem record_holds_the_arguments_and_the_fixed_nodes
  (E : environment) (make model offer_url : str) (w w1 : world) (page : soup)
  (row : list cell) :
  df_columns (frame w) = columns ->
  get_page E offer_url (add_log (Info_scraping_offer offer_url) w) = (Ok (Some page), w1) ->
  df_rows (frame (snd (scrape_offer_data E make model offer_url w)))
  = df_rows (frame w) ++ [row] ->
  Forall (fun l => text l ∉ map py ["Марка"; "Модел"; "Цена [лв./EUR]"; "Посещения"; "Заглавие"])
         (find_all (by_name_class (py "label") (py "extra_cat")) page) ->
  exists h1 price views,
    find (by_name (py "h1")) page = Some h1
    /\ find (by_name_id (py "span") (py "details_price")) page = Some price
    /\ find (by_name_class (py "span") (py "advact")) page = Some views
    /\ (py "Марка", Str (strip make)) ∈ record_of columns row
    /\ (py "Модел", Str (strip model)) ∈ record_of columns row
    /\ (py "Заглавие", Str (strip (text h1))) ∈ record_of columns row
    /\ (py "Цена [лв./EUR]", Str (strip (text price))) ∈ record_of columns row
    /\ (py "Посещения", Str (text views)) ∈ record_of columns row.
Proof.
  intros Hcols Hpage Hrows Hlabels. rewrite scrape_offer_data_eq, Hpage in Hrows.
  apply get_page_same_data in Hpage. destruct Hpage as (Hf1 & _).
  change (frame w1 = frame w) in Hf1.
  assert (Hgrow : forall rows : list (list cell), rows <> rows ++ [row]).
  { intros rows Heq. apply (f_equal length) in Heq. rewrite length_app in Heq.
    simpl in Heq. lia. }
  destruct (parse_main_car_details (Some page) ∅ w1) as [[parsed_data|e] w2] eqn:Hmain.
  2:{ apply parse_main_car_details_only_logged in Hmain. destruct Hmain as [(Hf2 & _) _].
      exfalso. apply (Hgrow (df_rows (frame w))). rewrite <- Hrows.
      destruct e; cbn [snd]; congruence. }
  apply parse_main_car_details_only_logged in Hmain. destruct Hmain as [(Hf2 & _) _].
  destruct (finish_offer make model (Some page) parsed_data w2) as [[[]|e] w3] eqn:Hfin.
  2:{ apply finish_offer_frame in Hfin.
      destruct Hfin as [[Hsame _]|(filled & Hok & _)]; [|discriminate Hok].
      exfalso. apply (Hgrow (df_rows (frame w))). rewrite <- Hrows. cbn [snd]. congruence. }
  apply finish_offer_Ok in Hfin.
  destruct Hfin as (h1 & price & views & parts & features & Hh1 & Hprice & Hviews & Hfeat & Hrow).
  cbn [snd] in Hrows. rewrite Hrow, Hf2, Hf1, Hcols in Hrows.
  apply app_inv_head in Hrows. injection Hrows as <-.
  exists h1, price, views. split; [exact Hh1|]. split; [exact Hprice|]. split; [exact Hviews|].
  destruct (parse_feature_labels_keys _ _ _ Hfeat) as [Hother _].
  rewrite Forall_forall in Hlabels.
  assert (Hfield : forall c v,
             c ∈ map py ["Марка"; "Модел"; "Цена [лв./EUR]"; "Посещения"; "Заглавие"] ->
             (<[py "Посещения" := Some (text views)]>
                (<[py "Населено място [Държава]" := part parts 1]>
                   (<[py "Област [Извън страната]" := part parts 0]>
                      (<[py "Цена [лв./EUR]" := Some (strip (text price))]>
                         (<[py "Модел" := Some (strip model)]>
                            (<[py "Марка" := Some (strip make)]>
                               (<[py "Заглавие" := Some (strip (text h1))]> parsed_data)))))))
               !! c = Some (Some v) ->
             (c, Str v) ∈ record_of columns (map (cell_of (fill_missing features)) columns)).
  { intros c v Hc Hv.
    assert (Hcol : c ∈ columns).
    { clear Hv. apply list_elem_of_In in Hc. apply list_elem_of_In.
      cbn [map In] in Hc.
      destruct Hc as [<-|[<-|[<-|[<-|[<-|[]]]]]]; vm_compute; tauto. }
    replace (Str v) with (cell_of (fill_missing features) c).
    - apply record_of_field, Hcol.
    - unfold cell_of. rewrite (fill_missing_keeps features c (Some v)); [reflexivity|].
      rewrite Hother; [exact Hv|].
      intros Hin. apply list_elem_of_fmap in Hin. destruct Hin as (l & -> & Hl).
      apply (Hlabels l Hl), Hc. }
  repeat split; apply Hfield;
    try (apply list_elem_of_In; vm_compute; tauto);
    repeat (first [ apply lookup_insert_eq
                  | rewrite lookup_insert_ne
                      by (let H := fresh in intros H; vm_compute in H; discriminate H) ]).
Qed.

(** ** Region and city *)

Lemma split_without_separator (sep : char) (a : str) : sep ∉ a -> split sep a = [a].
Proof.
  induction a as [|c a IH]; intros Hsep; [reflexivity|].
  apply not_elem_of_cons in Hsep. destruct Hsep as [Hne Hsep].
  cbn [split]. rewrite (proj2 (N.eqb_neq c sep)) by congruence.
  rewrite IH by exact Hsep. reflexivity.
Qed.

Lemma split_at_separator (sep : char) (a r : str) :
  sep ∉ a -> split sep (a ++ sep :: r) = a :: split sep r.
Proof.
  induction a as [|c a IH]; intros Hsep.
  - cbn [app split]. rewrite N.eqb_refl. reflexivity.
  - apply not_elem_of_cons in Hsep. destruct Hsep as [Hne Hsep].
    cbn [app split]. rewrite (proj2 (N.eqb_neq c sep)) by congruence.
    rewrite IH by exact Hsep. reflexivity.
Qed.

(** The feature parser returns when every label has a tag after it. *)
Lemma parse_feature_labels_return (labels : list element) (target : dict) :
  Forall (fun l => is_Some (find_next_sibling any_tag l)) labels ->
  exists target', parse_feature_labels labels target = Ok target'.
Proof.
  revert target. induction labels as [|label rest IH]; intros target Hnext.
  - exists target. reflexivity.
  - inversion Hnext as [|? ? [next Hlabel] Hrest]; subst.
    cbn [parse_feature_labels].
    pose proof (parse_feature_label_cases label) as Hcase. rewrite Hlabel in Hcase.
    destruct Hcase as (v & Hv). rewrite Hv. cbn [bind]. apply IH, Hrest.
Qed.

Lemma loc_append_columns (data : DataFrame) (value : dict) :
  df_columns data <> [] ->
  loc_append data value
  = Ok (Frame (df_columns data) (df_rows data ++ [map (cell_of value) (df_columns data)])).
Proof.
  unfold loc_append. destruct (df_columns data) as [|c cols]; [congruence | reflexivity].
Qed.

Lemma columns_not_empty : columns <> [].
Proof. intros H. apply (f_equal length) in H. vm_compute in H. discriminate H. Qed.

(** A page with its title, price and views, whose feature labels each
    have a tag after them: the steps after the main details return, and
    add the row of the filled dictionary. *)
Lemma finish_offer_returns make model page parsed_data w h1 price views :
  find (by_name (py "h1")) page = Some h1 ->
  find (by_name_id (py "span") (py "details_price")) page = Some price ->
  find (by_name_class (py "span") (py "advact")) page = Some views ->
  Forall (fun l => is_Some (find_next_sibling any_tag l))
         (find_all (by_name_class (py "label") (py "extra_cat")) page) ->
  df_columns (frame w) <> [] ->
  exists features,
    parse_additional_car_features page
      (<[py "Посещения" := Some (text views)]>
         (<[py "Населено място [Държава]" :=
              part (match find (by_name_class (py "div") (py "adress")) page with
                    | Some adress => split 44%N (text adress)
                    | None => []
                    end) 1]>
            (<[py "Област [Извън страната]" :=
                 part (match find (by_name_class (py "div") (py "adress")) page with
                       | Some adress => split 44%N (text adress)
                       | None => []
                       end) 0]>
               (<[py "Цена [лв./EUR]" := Some (strip (text price))]>
                  (<[py "Модел" := Some (strip model)]>
                     (<[py "Марка" := Some (strip make)]>
                        (<[py "Заглавие" := Some (strip (text h1))]> parsed_data)))))))
    = Ok features
    /\ finish_offer make model (Some page) parsed_data w
       = (Ok tt,
          set_frame (Frame (df_columns (frame w))
                           (df_rows (frame w)
                            ++ [map (cell_of (fill_missing features)) (df_columns (frame w))]))
                    (match find (by_name_class (py "div") (py "adress")) page with
                     | Some _ => w
                     | None => add_log Warning_no_region_city w
                     end)).
Proof.
  intros Hh1 Hprice Hviews Hnext Hcols.
  match goal with
  | |- exists features, parse_additional_car_features page ?d = _ /\ _ =>
      destruct (parse_feature_labels_return _ d Hnext) as (features & Hfeatures)
  end.
  exists features. split; [exact Hfeatures|].
  unfold finish_offer, region_city, mbind, lift, logging, ret, append_row.
  cbv beta iota delta [deref]. rewrite Hh1, Hprice.
  unfold parse_additional_car_features in *.
  destruct (find (by_name_class (py "div") (py "adress")) page) as [adress|];
    rewrite Hviews, Hfeatures, loc_append_columns by exact Hcols; reflexivity.
Qed.

(** X13. In the row that [scrape_offer_data] adds for a page with its main
    details, title, price and views, the region and the city are the first
    two parts of the text of the [adress] node, cut at the commas and
    trimmed. Without the node a warning is logged and both cells are
    [None]; a text without a comma gives the region and no city; what
    follows a second comma is dropped. In each of these cases the call
    returns and the row is added. This holds when every [extra_cat] label
    of the page has a tag after it and none has one of the two column
    names as its text. *)
Theorem region_and_city_are_the_first_two_parts
  (E : environment) (make model offer_url : str) (w w1 : world) (page : soup)
  (ul h1 price views : element) :
  df_columns (frame w) = columns ->
  get_page E offer_url (add_log (Info_scraping_offer offer_url) w) = (Ok (Some page), w1) ->
  find (by_name_class (py "ul") (py "dilarData")) page = Some ul ->
  find (by_name (py "h1")) page = Some h1 ->
  find (by_name_id (py "span") (py "details_price")) page = Some price ->
  find (by_name_class (py "span") (py "advact")) page = Some views ->
  Forall (fun l => is_Some (find_next_sibling any_tag l)
                   /\ text l ∉ map py ["Област [Извън страната]"; "Населено място [Държава]"])
         (find_all (by_name_class (py "label") (py "extra_cat")) page) ->
  let done := scrape_offer_data E make model offer_url w in
  exists row region city,
    fst done = Ok tt
    /\ df_rows (frame (snd done)) = df_rows (frame w) ++ [row]
    /\ (py "Област [Извън страната]", region) ∈ record_of columns row
    /\ (py "Населено място [Държава]", city) ∈ record_of columns row
    /\ match find (by_name_class (py "div") (py "adress")) page with
       | None =>
           region = PyNone /\ city = PyNone
           /\ log (snd done) = log w1 ++ [Warning_no_region_city]
       | Some adress =>
           (44%N ∉ text adress -> region = Str (strip (text adress)) /\ city = PyNone)
           /\ (forall a b rest,
                 text adress = a ++ 44%N :: b ++ rest ->
                 44%N ∉ a -> 44%N ∉ b -> rest = [] \/ (exists r, rest = 44%N :: r) ->
                 region = Str (strip a) /\ city = Str (strip b))
       end.
Proof.
  intros Hcols Hpage Hul Hh1 Hprice Hviews Hlabels done. subst done.
  rewrite scrape_offer_data_eq, Hpage.
  destruct (parse_main_car_details_present page ul ∅ w1 Hul) as (parsed_data & ->).
  apply get_page_same_data in Hpage. destruct Hpage as (Hf1 & _).
  change (frame w1 = frame w) in Hf1.
  assert (Hnext : Forall (fun l => is_Some (find_next_sibling any_tag l))
                         (find_all (by_name_class (py "label") (py "extra_cat")) page)).
  { eapply Forall_impl; [exact Hlabels|]. intros l [Hl _]. exact Hl. }
  destruct (finish_offer_returns make model page parsed_data w1 h1 price views
              Hh1 Hprice Hviews Hnext) as (features & Hfeatures & ->).
  { rewrite Hf1, Hcols. apply columns_not_empty. }
  rewrite Hf1, Hcols.
  set (parts := match find (by_name_class (py "div") (py "adress")) page with
                | Some adress => split 44%N (text adress)
                | None => []
                end) in *.
  destruct (parse_feature_labels_keys _ _ _ Hfeatures) as [Hother _].
  assert (Hkeep : forall c,
             c ∈ map py ["Област [Извън страната]"; "Населено място [Държава]"] ->
             c ∉ map text (find_all (by_name_class (py "label") (py "extra_cat")) page)).
  { intros c Hc Hin. apply list_elem_of_fmap in Hin. destruct Hin as (l & -> & Hl).
    rewrite Forall_forall in Hlabels. apply (Hlabels l Hl), Hc. }
  assert (Hregion : fill_missing features !! py "Област [Извън страната]"
                    = Some (part parts 0)).
  { apply fill_missing_keeps. rewrite Hother by (apply Hkeep; left).
    repeat (first [ apply lookup_insert_eq
                  | rewrite lookup_insert_ne
                      by (let H := fresh in intros H; vm_compute in H; discriminate H) ]). }
  assert (Hcity : fill_missing features !! py "Населено място [Държава]"
                  = Some (part parts 1)).
  { apply fill_missing_keeps. rewrite Hother by (apply Hkeep; right; left).
    repeat (first [ apply lookup_insert_eq
                  | rewrite lookup_insert_ne
                      by (let H := fresh in intros H; vm_compute in H; discriminate H) ]). }
  exists (map (cell_of (fill_missing features)) columns),
    (cell_of (fill_missing features) (py "Област [Извън страната]")),
    (cell_of (fill_missing features) (py "Населено място [Държава]")).
  split; [reflexivity|].
  split; [destruct (find (by_name_class (py "div") (py "adress")) page); reflexivity|].
  split; [apply record_of_field, list_elem_of_In; vm_compute; tauto|].
  split; [apply record_of_field, list_elem_of_In; vm_compute; tauto|].
  unfold cell_of. rewrite Hregion, Hcity. subst parts.
  destruct (find (by_name_class (py "div") (py "adress")) page) as [adress|].
  - split.
    + intros Hno. rewrite split_without_separator by exact Hno. split; reflexivity.
    + intros a b rest -> Ha Hb Hrest. rewrite split_at_separator by exact Ha.
      destruct Hrest as [->|(r & ->)].
      * rewrite app_nil_r, split_without_separator by exact Hb. split; reflexivity.
      * rewrite split_at_separator by exact Hb. split; reflexivity.
  - repeat split.
Qed.

(** ** The main details *)

Lemma odd_position (s : nat) : s mod 2 = 0 -> S s mod 2 = 1.
Proof.
  intros Hs. replace (S s) with (s + 1) by lia.
  rewrite Nat.Div0.add_mod, Hs. reflexivity.
Qed.

Lemma even_position (s : nat) : s mod 2 = 0 -> S (S s) mod 2 = 0.
Proof.
  intros Hs. replace (S (S s)) with (s + 1 * 2) by lia.
  rewrite Nat.Div0.mod_add. exact Hs.
Qed.

(** Zipping the texts at the even positions with those at the odd ones
    gives the consecutive pairs; an item left over at the end has no
    partner. *)
Lemma zip_of_alternating (pairs : list (str * str)) (last_one : list str) :
  length last_one <= 1 ->
  forall (l : list element) (s : nat),
    s mod 2 = 0 ->
    map text l = flat_map (fun lv => [fst lv; snd lv]) pairs ++ last_one ->
    combine
      (map (fun ie => text (snd ie))
           (List.filter (fun ie => negb (is_data (fst ie) (snd ie)))
                        (combine (seq s (length l)) l)))
      (map (fun ie => text (snd ie))
           (List.filter (fun ie => is_data (fst ie) (snd ie))
                        (combine (seq s (length l)) l)))
    = pairs.
Proof.
  intros Hlast. induction pairs as [|[label value] pairs IH]; intros l s Hs Htexts.
  - cbn [flat_map app] in Htexts.
    destruct l as [|a [|b l]]; [reflexivity | |].
    + cbn [length seq combine List.filter fst snd].
      replace (is_data s a) with false by (unfold is_data; rewrite Hs; reflexivity).
      reflexivity.
    + apply (f_equal length) in Htexts. cbn [map length] in Htexts. lia.
  - cbn [flat_map app] in Htexts.
    destruct l as [|a [|b l]]; try discriminate Htexts.
    cbn [map] in Htexts. injection Htexts as Ha Hb Hrest.
    cbn [length seq combine List.filter fst snd].
    replace (is_data s a) with false by (unfold is_data; rewrite Hs; reflexivity).
    replace (is_data (S s) b) with true
      by (unfold is_data; rewrite (odd_position s Hs); reflexivity).
    cbn [negb map combine fst snd]. rewrite Ha, Hb. f_equal.
    apply (IH l (S (S s)) (even_position s Hs) Hrest).
Qed.

Lemma fold_insert_union (pairs : list (str * str)) (d target : dict) :
  fold_left (fun d lv => <[fst lv := Some (snd lv)]> d) pairs d ∪ target
  = fold_left (fun d lv => <[fst lv := Some (snd lv)]> d) pairs (d ∪ target).
Proof.
  revert d. induction pairs as [|lv pairs IH]; intros d; [reflexivity|].
  cbn [fold_left]. rewrite IH, insert_union_l. reflexivity.
Qed.

Lemma fold_insert_other (pairs : list (str * str)) (d : dict) (k : str) :
  k ∉ map fst pairs ->
  fold_left (fun d lv => <[fst lv := Some (snd lv)]> d) pairs d !! k = d !! k.
Proof.
  revert d. induction pairs as [|lv pairs IH]; intros d Hk; [reflexivity|].
  cbn [map] in Hk. apply not_elem_of_cons in Hk. destruct Hk as [Hne Hk].
  cbn [fold_left]. rewrite IH by exact Hk. apply lookup_insert_ne. congruence.
Qed.

Lemma fold_insert_value (pairs : list (str * str)) (d : dict) (label value : str) :
  NoDup (map fst pairs) -> (label, value) ∈ pairs ->
  fold_left (fun d lv => <[fst lv := Some (snd lv)]> d) pairs d !! label = Some (Some value).
Proof.
  revert d. induction pairs as [|lv pairs IH]; intros d Hnodup Hin; [inversion Hin|].
  cbn [map] in Hnodup. apply NoDup_cons in Hnodup. destruct Hnodup as [Hfresh Hnodup].
  cbn [fold_left]. apply elem_of_cons in Hin. destruct Hin as [<-|Hin].
  - cbn [fst snd]. rewrite fold_insert_other by exact Hfresh. apply lookup_insert_eq.
  - apply IH; assumption.
Qed.

(** X14. The main details are paired by position: when the texts of the
    [li] items of the list are label, value, label, value and so on, with at
    most one item left over at the end, the step puts each label with the
    value after it into the dictionary, one pair after the other, and drops
    the item left over. So keys that are no label keep what they had, and
    when no label comes twice every label holds its own value. *)
Theorem main_details_are_paired_by_position
  (page : soup) (ul : element) (target : dict) (w : world)
  (pairs : list (str * str)) (last_one : list str) :
  find (by_name_class (py "ul") (py "dilarData")) page = Some ul ->
  map text (find_all (by_name (py "li")) (contents ul))
  = flat_map (fun lv => [fst lv; snd lv]) pairs ++ last_one ->
  length last_one <= 1 ->
  let parsed := fold_left (fun d lv => <[fst lv := Some (snd lv)]> d) pairs target in
  parse_main_car_details (Some page) target w = (Ok parsed, w)
  /\ (forall k, k ∉ map fst pairs -> parsed !! k = target !! k)
  /\ (NoDup (map fst pairs) ->
      forall label value, (label, value) ∈ pairs -> parsed !! label = Some (Some value)).
Proof.
  intros Hul Htexts Hlast parsed. split; [|split].
  - unfold parse_main_car_details, main_car_details_html_list.
    cbn [deref bind]. rewrite Hul. cbn [deref bind]. unfold ret. f_equal. f_equal.
    unfold update, dict_of_zip, enumerate.
    rewrite (zip_of_alternating pairs last_one Hlast _ 0 eq_refl Htexts).
    rewrite fold_insert_union. rewrite (left_id ∅ (∪)). reflexivity.
  - intros k Hk. apply fold_insert_other, Hk.
  - intros Hnodup label value Hin. apply fold_insert_value; assumption.
Qed.

(** ** The order of the listings *)

Lemma offers_scraped_add_log (r : log_record) (w : world) :
  offers_scraped (add_log r w)
  = offers_scraped w ++ match r with Info_scraping_offer url => [url] | _ => [] end.
Proof. unfold offers_scraped. cbn [log add_log]. rewrite omap_app. destruct r; reflexivity. Qed.

Lemma get_page_loop_offers_scraped E attempts url w :
  offers_scraped (snd (get_page_loop E attempts url w)) = offers_scraped w.
Proof.
  revert w. induction attempts as [|i rest IH]; intros w; [reflexivity|].
  rewrite get_page_loop_step. destruct (answer E url w 0) as [content|e].
  - cbn [snd]. change (offers_scraped (add_log (Info_getting_page url) w) = offers_scraped w).
    rewrite offers_scraped_add_log. apply app_nil_r.
  - destruct (decide (e = RequestException)).
    + rewrite IH.
      change (offers_scraped
                (add_log (Error_request_exception (i + 1)) (add_log (Info_getting_page url) w))
              = offers_scraped w).
      rewrite !offers_scraped_add_log, !app_nil_r. reflexivity.
    + cbn [snd]. change (offers_scraped (add_log (Info_getting_page url) w) = offers_scraped w).
      rewrite offers_scraped_add_log. apply app_nil_r.
Qed.

Lemma parse_main_car_details_offers_scraped offer_soup target w :
  offers_scraped (snd (parse_main_car_details offer_soup target w)) = offers_scraped w.
Proof.
  unfold parse_main_car_details.
  destruct (main_car_details_html_list offer_soup) as [html_list|[]]; try reflexivity.
  unfold mbind, logging, raise. cbn [snd]. rewrite offers_scraped_add_log. apply app_nil_r.
Qed.

Lemma finish_offer_offers_scraped make model offer_soup parsed_data w :
  offers_scraped (snd (finish_offer make model offer_soup parsed_data w)) = offers_scraped w.
Proof.
  unfold finish_offer, region_city, mbind, lift, logging, ret, append_row.
  destruct offer_soup as [page|]; cbv beta iota delta [deref]; [|reflexivity].
  destruct (find (by_name (py "h1")) page); [|reflexivity].
  destruct (find (by_name_id (py "span") (py "details_price")) page); [|reflexivity].
  destruct (find (by_name_class (py "div") (py "adress")) page);
    (destruct (find (by_name_class (py "span") (py "advact")) page);
     [|cbn [snd]; rewrite ?offers_scraped_add_log, ?app_nil_r; reflexivity]);
    match goal with
    | |- context [parse_additional_car_features page ?d] =>
        destruct (parse_additional_car_features page d);
        [|cbn [snd]; rewrite ?offers_scraped_add_log, ?app_nil_r; reflexivity]
    end;
    match goal with
    | |- context [loc_append ?f ?d] => destruct (loc_append f d)
    end;
    cbn [snd];
    repeat match goal with
           | |- context [offers_scraped (set_frame ?d ?v)] =>
               change (offers_scraped (set_frame d v)) with (offers_scraped v)
           end;
    rewrite ?offers_scraped_add_log, ?app_nil_r; reflexivity.
Qed.

(** One call of [scrape_offer_data] is one offer asked for, whatever comes of it. *)
Lemma scrape_offer_data_offers_scraped E make model offer_url w :
  offers_scraped (snd (scrape_offer_data E make model offer_url w))
  = offers_scraped w ++ [offer_url].
Proof.
  rewrite scrape_offer_data_eq.
  pose proof (get_page_loop_offers_scraped E (range 3) offer_url
                (add_log (Info_scraping_offer offer_url) w)) as Hpage.
  fold (get_page E offer_url (add_log (Info_scraping_offer offer_url) w)) in Hpage.
  rewrite offers_scraped_add_log in Hpage.
  destruct (get_page E offer_url (add_log (Info_scraping_offer offer_url) w))
    as [[offer_soup|e] w1]; cbn [snd] in Hpage; [|exact Hpage].
  pose proof (parse_main_car_details_offers_scraped offer_soup ∅ w1) as Hmain.
  destruct (parse_main_car_details offer_soup ∅ w1) as [[parsed_data|e] w2]; cbn [snd] in Hmain.
  - rewrite finish_offer_offers_scraped. congruence.
  - destruct e; cbn [snd]; congruence.
Qed.

(** The loop over a list of links is the loop over its first part, then,
    if that returned, the loop over the rest. *)
Lemma scrape_offers_app E make model before after w :
  scrape_offers E make model (before ++ after) w
  = match scrape_offers E make model before w with
    | (Ok _, w0) => scrape_offers E make model after w0
    | (Raise e, w0) => (Raise e, w0)
    end.
Proof.
  revert w. induction before as [|link before IH]; intros w; [reflexivity|].
  cbn [app scrape_offers]. unfold mbind.
  destruct (scrape_offer_data E make model link w) as [[[]|e] w1]; [apply IH | reflexivity].
Qed.

Lemma scrape_offers_in_order E make model links w :
  exists visited skipped,
    links = visited ++ skipped
    /\ offers_scraped (snd (scrape_offers E make model links w)) = offers_scraped w ++ visited
    /\ (fst (scrape_offers E make model links w) = Ok tt -> skipped = [])
    /\ (forall e, fst (scrape_offers E make model links w) = Raise e ->
        exists before link w0,
          visited = before ++ [link]
          /\ scrape_offers E make model before w = (Ok tt, w0)
          /\ scrape_offer_data E make model link w0
             = (Raise e, snd (scrape_offers E make model links w))).
Proof.
  revert w. induction links as [|link rest IH]; intros w.
  - exists [], []. cbn [scrape_offers]. unfold ret. cbn [fst snd].
    split; [reflexivity|]. split; [symmetry; apply app_nil_r|].
    split; [reflexivity|]. intros e He. discriminate He.
  - cbn [scrape_offers]. unfold mbind.
    pose proof (scrape_offer_data_offers_scraped E make model link w) as Hone.
    destruct (scrape_offer_data E make model link w) as [[[]|e] w1] eqn:Hcall;
      cbn [snd] in Hone.
    + destruct (IH w1) as (visited & skipped & -> & Hlog & Hok & Hraise).
      exists (link :: visited), skipped. split; [reflexivity|].
      split; [rewrite Hlog, Hone, <- app_assoc; reflexivity|].
      split; [exact Hok|]. intros e He.
      destruct (Hraise e He) as (before & link' & w0 & -> & Hbefore & Hlast).
      exists (link :: before), link', w0. split; [reflexivity|].
      split; [|exact Hlast].
      cbn [scrape_offers]. unfold mbind. rewrite Hcall. exact Hbefore.
    + exists [link], rest. cbn [fst snd]. split; [reflexivity|].
      split; [exact Hone|]. split; [discriminate|]. intros e' He'.
      injection He' as <-. exists [], link, w. split; [reflexivity|].
      split; [reflexivity | exact Hcall].
Qed.

(** X15. The loop over the offer links of a result page scrapes the links
    in their order, each once, and stops at the first one whose scrape
    raises, with that exception: the offers asked for are a first part of
    the links, all of them when nothing is raised; when the loop raises,
    the last offer asked for is the one whose scrape raised that exception,
    after the scrapes before it had returned, and the loop ends in the
    world that scrape left; and a scrape that raises after the scrapes
    before it have returned always ends the loop so, whatever links
    follow. *)
Theorem listings_are_scraped_in_order
  (E : environment) (make model : str) (links : list str) (w : world) :
  let done := scrape_offers E make model links w in
  exists visited skipped,
    links = visited ++ skipped
    /\ offers_scraped (snd done) = offers_scraped w ++ visited
    /\ (fst done = Ok tt -> skipped = [])
    /\ (forall e, fst done = Raise e ->
        exists before link w0,
          visited = before ++ [link]
          /\ scrape_offers E make model before w = (Ok tt, w0)
          /\ scrape_offer_data E make model link w0 = (Raise e, snd done))
    /\ (forall before link after w0 e,
          links = before ++ link :: after ->
          scrape_offers E make model before w = (Ok tt, w0) ->
          fst (scrape_offer_data E make model link w0) = Raise e ->
          done = scrape_offer_data E make model link w0).
Proof.
  intros done.
  destruct (scrape_offers_in_order E make model links w)
    as (visited & skipped & Hsplit & Hlog & Hok & Hraise).
  exists visited, skipped.
  split; [exact Hsplit|]. split; [exact Hlog|]. split; [exact Hok|]. split; [exact Hraise|].
  intros before link after w0 e Hlinks Hbefore Hcall. subst done.
  rewrite Hlinks, scrape_offers_app, Hbefore. cbn [scrape_offers]. unfold mbind.
  destruct (scrape_offer_data E make model link w0) as [[[]|e'] w1];
    [discriminate Hcall | reflexivity].
Qed.

(** X16. For every site: when the browser lands on the offers of a
    combination and their first result page is fetched, all the offers
    [scrape_model] asks for are offer links of that page, in their order;
    offers of further result pages are never asked for. *)
Theorem only_offers_of_the_first_result_page_are_scraped
  (E : environment) (fuel : nat) (make model current_url : str) (w w2 : world) (page : soup) :
  browse E (navigations w) make model = Landed current_url ->
  get_page E (drop 6 current_url)
    (add_log (Info_getting_offers make model)
       (add_log (Info_after_search make model current_url) (tick_navigation w)))
  = (Ok (Some page), w2) ->
  exists r w' links visited skipped,
    scrape_model E (S fuel) make model w = Some (r, w')
    /\ hrefs (find_all is_offer_link page) = Ok links
    /\ links = visited ++ skipped
    /\ offers_scraped w' = offers_scraped w ++ visited
    /\ (r = Ok tt -> skipped = []).
Proof.
  intros Hland Hpage. rewrite scrape_model_first_page.
  unfold scrape_first_page, mbind, go_to_model_offers, logging. rewrite Hland, Hpage.
  pose proof (get_page_loop_offers_scraped E (range 3) (drop 6 current_url)
                (add_log (Info_getting_offers make model)
                   (add_log (Info_after_search make model current_url) (tick_navigation w))))
    as Hlog.
  fold (get_page E (drop 6 current_url)
          (add_log (Info_getting_offers make model)
             (add_log (Info_after_search make model current_url) (tick_navigation w))))
    in Hlog.
  rewrite Hpage in Hlog. cbn [snd] in Hlog.
  rewrite !offers_scraped_add_log, !app_nil_r in Hlog.
  change (offers_scraped (tick_navigation w)) with (offers_scraped w) in Hlog.
  destruct (offer_links_found page) as (links & Hlinks).
  destruct (scrape_offers_in_order E make model links w2)
    as (visited & skipped & Hsplit & Hvisited & Hok & _).
  unfold single_page, mbind, lift, ret. cbn [deref]. rewrite Hlinks.
  destruct (scrape_offers E make model links w2) as [[[]|e] w3]; cbn [fst snd] in *.
  - destruct (find (by_name_class (py "a") (py "saveSlink selected")) page); cbn [deref].
    + exists (Ok tt), w3, links, visited, skipped. rewrite Hvisited, Hlog. auto.
    + exists (Raise AttributeError), w3, links, visited, skipped.
      rewrite Hvisited, Hlog. repeat split; auto; discriminate.
  - exists (Raise e), w3, links, visited, skipped.
    rewrite Hvisited, Hlog. repeat split; auto; discriminate.
Qed.

(** ** The files of a worker *)

Lemma scrape_combinations_files (E : environment) (fuel : nat) (models : list (str * str)) :
  forall w r w',
    scrape_combinations E (S fuel) models w = Some (r, w') ->
    (forall path, path <> temp_partial E -> files w' !! path = files w !! path)
    /\ (exists added,
          default [] (files w' !! temp_partial E)
          = default [] (files w !! temp_partial E) ++ added)
    /\ (exists records, log w' = log w ++ records).
Proof.
  induction models as [|[make model] rest IH]; intros w r w' H.
  - cbn [scrape_combinations] in H. injection H as <- <-.
    split; [reflexivity|]. split; exists []; symmetry; apply app_nil_r.
  - cbn [scrape_combinations] in H. unfold scrape_combination in H.
    destruct (retry_loop_bounds E fuel make model w)
      as (r1 & w1 & Hloop & _ & _ & Hother & (added & Hadded) & (records & Hlog)).
    rewrite Hloop in H. destruct r1 as [[]|e].
    + destruct (IH _ _ _ H) as (Hother' & (added' & Hadded') & (records' & Hlog')).
      split; [|split].
      * intros path Hpath. rewrite Hother' by exact Hpath. apply Hother, Hpath.
      * exists (added ++ added'). rewrite Hadded', Hadded, app_assoc. reflexivity.
      * exists (records ++ records'). rewrite Hlog', Hlog, app_assoc. reflexivity.
    + injection H as <- <-. split; [exact Hother|]. split; eauto.
Qed.

(** X17. A worker writes to two files only: the log, to which it appends
    its records, and, of the data files, [./temp/partial-<pid>.csv] with
    its own process id. When [scrape_worker] ends, normally or with an
    exception, every other data file is as it was, the partial file holds
    what it held before with lines added at its end, and the log holds what
    it held before with records added at its end. *)
Theorem worker_writes_only_its_partial_file
  (E : environment) (fuel : nat) (models : list (str * str)) (w w' : world)
  (r : result unit) :
  scrape_worker E (S fuel) models w = Some (r, w') ->
  (forall path, path <> temp_partial E -> files w' !! path = files w !! path)
  /\ (exists added,
        default [] (files w' !! temp_partial E)
        = default [] (files w !! temp_partial E) ++ added)
  /\ (exists records, log w' = log w ++ records).
Proof.
  unfold scrape_worker.
  set (w0 := set_frame (new_frame columns) (add_log (Info_scraping models) w)).
  assert (Hstart : files w0 = files w /\ log w0 = log w ++ [Info_scraping models])
    by (split; reflexivity).
  destruct Hstart as [Hf0 Hl0].
  destruct (session_start E) as [[]|e]; intros H.
  - destruct (scrape_combinations E (S fuel) models w0) as [[r0 w1]|] eqn:Hloop;
      [|discriminate H].
    apply scrape_combinations_files in Hloop.
    destruct Hloop as (Hother & (added & Hadded) & (records & Hlog)).
    assert (Hw : w' = w1) by (destruct r0 as [[]|e]; congruence). subst w'.
    rewrite Hf0 in Hother, Hadded. rewrite Hl0 in Hlog.
    split; [exact Hother|]. split; [eauto|].
    exists ([Info_scraping models] ++ records). rewrite Hlog, app_assoc. reflexivity.
  - injection H as <- <-. rewrite Hf0, Hl0.
    split; [reflexivity|]. split; [exists []; symmetry; apply app_nil_r | eauto].
Qed.

(** X18. A result page without a link marked as the current page makes the
    worker stop: once the offers of the page have been scraped,
    [has_next_page] is called with [None] and raises [AttributeError],
    which is not retried; the combinations left are not scraped and the
    rows of these offers are never written to a file. *)
Theorem result_page_without_page_links_stops_the_worker
  (E : environment) (fuel : nat) (make model current_url : str) (rest : list (str * str))
  (w w2 w3 : world) (page : soup) (links : list str) :
  browse E (navigations w) make model = Landed current_url ->
  get_page E (drop 6 current_url)
    (add_log (Info_getting_offers make model)
       (add_log (Info_after_search make model current_url) (tick_navigation w)))
  = (Ok (Some page), w2) ->
  hrefs (find_all is_offer_link page) = Ok links ->
  scrape_offers E make model links w2 = (Ok tt, w3) ->
  find (by_name_class (py "a") (py "saveSlink selected")) page = None ->
  scrape_combinations E (S fuel) ((make, model) :: rest) w = Some (Raise AttributeError, w3)
  /\ offers_scraped w3 = offers_scraped w ++ links
  /\ files w3 = files w.
Proof.
  intros Hland Hpage Hlinks Hoffers Hmarker.
  assert (Hmodel : scrape_model E (S fuel) make model w = Some (Raise AttributeError, w3)).
  { rewrite scrape_model_first_page.
    unfold scrape_first_page, mbind, go_to_model_offers, logging. rewrite Hland, Hpage.
    unfold single_page, mbind, lift, ret. cbn [deref]. rewrite Hlinks, Hoffers, Hmarker.
    reflexivity. }
  split; [|split].
  - cbn [scrape_combinations]. unfold scrape_combination.
    change (range 3) with [0; 1; 2]. cbn [retry_loop]. rewrite Hmodel.
    destruct (decide (AttributeError = WebDriverException)) as [Heq|_]; [discriminate Heq|].
    reflexivity.
  - destruct (scrape_offers_in_order E make model links w2)
      as (visited & skipped & Hsplit & Hvisited & Hok & _).
    rewrite Hoffers in Hvisited, Hok. cbn [fst snd] in Hvisited, Hok.
    rewrite (Hok eq_refl), app_nil_r in Hsplit. subst visited.
    pose proof (get_page_loop_offers_scraped E (range 3) (drop 6 current_url)
                  (add_log (Info_getting_offers make model)
                     (add_log (Info_after_search make model current_url) (tick_navigation w))))
      as Hlog.
    fold (get_page E (drop 6 current_url)
            (add_log (Info_getting_offers make model)
               (add_log (Info_after_search make model current_url) (tick_navigation w))))
      in Hlog.
    rewrite Hpage in Hlog. cbn [snd] in Hlog.
    rewrite !offers_scraped_add_log, !app_nil_r in Hlog.
    change (offers_scraped (tick_navigation w)) with (offers_scraped w) in Hlog.
    rewrite Hvisited, Hlog. reflexivity.
  - rewrite scrape_model_first_page in Hmodel. injection Hmodel as Hmodel.
    apply scrape_first_page_outer in Hmodel. apply Hmodel.
Qed.

(** ** The enumeration of the combinations *)

Section EnumerationFacts.

Variable model_options : nat -> str -> result (list str).

Lemma get_all_models_from_Ok (makes : list str) :
  forall (visits : nat) (tuples : list (str * str)) (options_seen : list (list str)),
    length options_seen = length makes ->
    (forall i make options,
       makes !! i = Some make -> options_seen !! i = Some options ->
       model_options (visits + i) make = Ok options) ->
    get_all_models_from model_options visits makes tuples
    = Ok (tuples
          ++ concat (zip_with (fun make options =>
                                 map (fun model => (make, strip model)) (drop 1 options))
                              makes options_seen)).
Proof.
  induction makes as [|make makes IH]; intros visits tuples options_seen Hlen Hseen.
  - cbn [get_all_models_from zip_with concat]. rewrite app_nil_r. reflexivity.
  - destruct options_seen as [|options options_seen]; [discriminate Hlen|].
    cbn [get_all_models_from].
    pose proof (Hseen 0 make options eq_refl eq_refl) as H0.
    replace (visits + 0) with visits in H0 by lia. rewrite H0. cbn [bind].
    rewrite (IH (S visits) _ options_seen).
    + cbn [zip_with concat]. rewrite <- app_assoc. reflexivity.
    + cbn [length] in Hlen. lia.
    + intros i make' options' Hi Ho. replace (S visits + i) with (visits + S i) by lia.
      apply Hseen; assumption.
Qed.

Lemma get_all_models_from_Raise (makes : list str) :
  forall (visits : nat) (tuples : list (str * str)) (k : nat) (make : str) (e : exn),
    makes !! k = Some make ->
    model_options (visits + k) make = Raise e ->
    (forall i make', i < k -> makes !! i = Some make' ->
                     exists options, model_options (visits + i) make' = Ok options) ->
    get_all_models_from model_options visits makes tuples = Raise e.
Proof.
  induction makes as [|make0 makes IH]; intros visits tuples k make e Hk He Hbefore.
  - discriminate Hk.
  - cbn [get_all_models_from]. destruct k as [|k].
    + injection Hk as ->. replace (visits + 0) with visits in He by lia.
      rewrite He. reflexivity.
    + destruct (Hbefore 0 make0 ltac:(lia) eq_refl) as (options & Ho).
      replace (visits + 0) with visits in Ho by lia. rewrite Ho. cbn [bind].
      apply (IH (S visits) _ k make e Hk).
      * replace (S visits + k) with (visits + S k) by lia. exact He.
      * intros i make' Hi Hm. replace (S visits + i) with (visits + S i) by lia.
        apply Hbefore; [lia | exact Hm].
Qed.

End EnumerationFacts.

(** X19. When the search form gives the model options of every make,
    [get_all_models] returns the combinations make by make in the order of
    the makes; for each make they are its options but the first (the
    placeholder), in their order, with the text of the model trimmed and
    the make as it was given. A make whose only option is the placeholder
    gives no combination. *)
Theorem combinations_are_enumerated_make_by_make
  (model_options : nat -> str -> result (list str)) (makes : list str)
  (options_seen : list (list str)) :
  length options_seen = length makes ->
  (forall i make options,
     makes !! i = Some make -> options_seen !! i = Some options ->
     model_options i make = Ok options) ->
  get_all_models model_options makes
  = Ok (concat (zip_with (fun make options =>
                            map (fun model => (make, strip model)) (drop 1 options))
                         makes options_seen)).
Proof.
  intros Hlen Hseen. unfold get_all_models.
  rewrite (get_all_models_from_Ok model_options makes 0 [] options_seen Hlen); [reflexivity|].
  exact Hseen.
Qed.

(** X20. When the search form fails at one make, with the makes before it
    read, [get_all_models] raises that exception: the combinations of the
    makes already read are not returned, and the makes after it are not
    visited. *)
Theorem a_failing_make_ends_the_enumeration
  (model_options : nat -> str -> result (list str)) (makes : list str)
  (k : nat) (make : str) (e : exn) :
  makes !! k = Some make ->
  model_options k make = Raise e ->
  (forall i make', i < k -> makes !! i = Some make' ->
                   exists options, model_options i make' = Ok options) ->
  get_all_models model_options makes = Raise e.
Proof.
  intros Hk He Hbefore. unfold get_all_models.
  apply (get_all_models_from_Raise model_options makes 0 [] k make e Hk He Hbefore).
Qed.

(** ** The output file *)

Section ConcatenationFacts.

Variable read_csv : list csv_line -> result DataFrame.
Variable today : str.

Lemma output_is_no_temp_file (name : str) : OUTPUT_FILE_PATH today <> temp_file name.
Proof.
  unfold OUTPUT_FILE_PATH, temp_file. intros Heq.
  apply (f_equal (fun l : str => l !! 2)) in Heq. vm_compute in Heq. discriminate Heq.
Qed.

Lemma temp_file_inj (a b : str) : temp_file a = temp_file b -> a = b.
Proof. unfold temp_file. apply app_inv_head. Qed.

Lemma merge_partial_results_Ok (listdir : list str) :
  forall (frames : list DataFrame) (fs : filesystem),
    NoDup listdir ->
    length frames = length listdir ->
    (forall i name df,
       listdir !! i = Some name -> frames !! i = Some df ->
       exists lines, fs !! temp_file name = Some lines /\ read_csv lines = Ok df) ->
    exists fs',
      merge_partial_results read_csv today listdir fs = (Ok tt, fs')
      /\ (forall name, name ∈ listdir -> fs' !! temp_file name = None)
      /\ (forall path,
            path <> OUTPUT_FILE_PATH today ->
            (forall name, name ∈ listdir -> path <> temp_file name) ->
            fs' !! path = fs !! path)
      /\ fs' !! OUTPUT_FILE_PATH today
         = match frames with
           | [] => fs !! OUTPUT_FILE_PATH today
           | first :: _ =>
               Some (default [] (fs !! OUTPUT_FILE_PATH today)
                     ++ match fs !! OUTPUT_FILE_PATH today with
                        | Some _ => []
                        | None => [Header (df_columns first)]
                        end
                     ++ concat (map (fun df => map Row (df_rows df)) frames))
           end.
Proof.
  induction listdir as [|name rest IH]; intros frames fs Hnodup Hlen Hfiles.
  - destruct frames; [|discriminate Hlen]. exists fs. cbn [merge_partial_results].
    split; [reflexivity|]. split; [intros n Hn; inversion Hn|]. split; reflexivity.
  - destruct frames as [|df frames]; [discriminate Hlen|].
    apply NoDup_cons in Hnodup. destruct Hnodup as [Hfresh Hnodup].
    destruct (Hfiles 0 name df eq_refl eq_refl) as (lines & Hlines & Hread).
    cbn [merge_partial_results]. rewrite Hlines, Hread.
    set (header := negb (path_exists fs (OUTPUT_FILE_PATH today))).
    set (fs1 := delete (temp_file name) (to_csv df (OUTPUT_FILE_PATH today) header fs)).
    assert (Hout1 : fs1 !! OUTPUT_FILE_PATH today
                    = Some (default [] (fs !! OUTPUT_FILE_PATH today)
                            ++ match fs !! OUTPUT_FILE_PATH today with
                               | Some _ => []
                               | None => [Header (df_columns df)]
                               end
                            ++ map Row (df_rows df))).
    { unfold fs1, to_csv. rewrite lookup_delete_ne by (symmetry; apply output_is_no_temp_file).
      rewrite lookup_insert_eq. unfold header, path_exists.
      destruct (fs !! OUTPUT_FILE_PATH today) as [old|].
      - rewrite bool_decide_eq_true_2 by eauto. reflexivity.
      - rewrite bool_decide_eq_false_2 by (intros [? ?]; discriminate). reflexivity. }
    assert (Hother1 : forall path,
               path <> OUTPUT_FILE_PATH today -> path <> temp_file name ->
               fs1 !! path = fs !! path).
    { intros path Hp1 Hp2. unfold fs1, to_csv.
      rewrite lookup_delete_ne by congruence. apply lookup_insert_ne. congruence. }
    destruct (IH frames fs1 Hnodup) as (fs' & Hmerge & Hgone & Hother & Hout).
    + cbn [length] in Hlen. lia.
    + intros i name' df' Hi Hd.
      destruct (Hfiles (S i) name' df' Hi Hd) as (lines' & Hlines' & Hread').
      exists lines'. split; [|exact Hread'].
      rewrite Hother1; [exact Hlines' | symmetry; apply output_is_no_temp_file |].
      intros Heq. apply temp_file_inj in Heq. subst name'.
      apply Hfresh. apply list_elem_of_lookup. eauto.
    + exists fs'. split; [exact Hmerge|]. split; [|split].
      * intros n Hn. apply elem_of_cons in Hn. destruct Hn as [->|Hn]; [|apply Hgone, Hn].
        rewrite Hother.
        -- unfold fs1. apply lookup_delete_eq.
        -- symmetry. apply output_is_no_temp_file.
        -- intros n Hn Heq. apply temp_file_inj in Heq. subst n. contradiction.
      * intros path Hp Hnames. rewrite Hother.
        -- apply Hother1; [exact Hp|]. apply Hnames. left.
        -- exact Hp.
        -- intros n Hn. apply Hnames. right. exact Hn.
      * rewrite Hout. destruct frames as [|df' frames].
        -- rewrite Hout1. cbn [map concat]. rewrite app_nil_r. reflexivity.
        -- rewrite Hout1. cbn [default from_option id map concat app].
           rewrite <- !app_assoc. reflexivity.
Qed.

End ConcatenationFacts.

(** X21. When [main] puts the partial files together, with the names
    listed each once and every file readable, the output file of the day
    gets the rows of the partial files in the order of the listing, after
    one header line (that of the first file) if the output file was not
    there and after what it held, with no header, if it was; every partial
    file listed is removed, and no other file is touched. *)
Theorem partial_results_are_put_together
  (read_csv : list csv_line -> result DataFrame) (today : str)
  (listdir : list str) (frames : list DataFrame) (fs : filesystem) :
  NoDup listdir ->
  length frames = length listdir ->
  (forall i name df,
     listdir !! i = Some name -> frames !! i = Some df ->
     exists lines, fs !! temp_file name = Some lines /\ read_csv lines = Ok df) ->
  exists fs',
    merge_partial_results read_csv today listdir fs = (Ok tt, fs')
    /\ (forall name, name ∈ listdir -> fs' !! temp_file name = None)
    /\ (forall path,
          path <> OUTPUT_FILE_PATH today ->
          (forall name, name ∈ listdir -> path <> temp_file name) ->
          fs' !! path = fs !! path)
    /\ fs' !! OUTPUT_FILE_PATH today
       = match frames with
         | [] => fs !! OUTPUT_FILE_PATH today
         | first :: _ =>
             Some (default [] (fs !! OUTPUT_FILE_PATH today)
                   ++ match fs !! OUTPUT_FILE_PATH today with
                      | Some _ => []
                      | None => [Header (df_columns first)]
                      end
                   ++ concat (map (fun df => map Row (df_rows df)) frames))
         end.
Proof. apply merge_partial_results_Ok. Qed.

(** ** The further properties at work on the fixtures *)

Lemma unavailable_result_page_stops_the_worker_witness :
  exists w',
    scrape_combinations Cases.no_results 1
      [(py "Audi", py "A4"); (py "Audi", py "A6")] Fixture.start
    = Some (Raise AttributeError, w')
    /\ navigations w' = 1 /\ requests_made w' = 3.
Proof.
  destruct (unavailable_result_page_stops_the_worker Cases.no_results 0 (py "Audi") (py "A4")
              (py "https://www.mobile.bg/results/p1") [(py "Audi", py "A6")] Fixture.start)
    as (w' & Hstop & Hn & Hr & _).
  - reflexivity.
  - intros j Hj. reflexivity.
  - exists w'. split; [exact Hstop | split; [exact Hn | exact Hr]].
Defined.

Lemma chunks_outnumber_the_processes_witness :
  model_subsets (seq 0 81) = Ok (map (fun i => [i]) (seq 0 81))
  /\ 80 <= length (map (fun i => [i]) (seq 0 81)) <= 159.
Proof.
  assert (H : model_subsets (seq 0 81) = Ok (map (fun i => [i]) (seq 0 81)))
    by (vm_compute; reflexivity).
  split; [exact H|].
  apply (chunks_outnumber_the_processes (seq 0 81) _ H).
Defined.

Lemma features_set_only_the_keys_of_their_labels_witness :
  (<[py "Безопасност" := Some (py "A, B")]> (<[py "Марка" := Some (py "Audi")]> ∅) : dict)
    !! py "Марка" = Some (Some (py "Audi")).
Proof.
  assert (H : parse_additional_car_features FeatureFixture.two_values
                (<[py "Марка" := Some (py "Audi")]> ∅)
              = Ok (<[py "Безопасност" := Some (py "A, B")]>
                      (<[py "Марка" := Some (py "Audi")]> ∅)))
    by (vm_compute; reflexivity).
  destruct (features_set_only_the_keys_of_their_labels _ _ _ H) as [Hother _].
  rewrite (Hother (py "Марка")).
  - vm_compute. reflexivity.
  - apply (bool_decide_unpack _). vm_compute. exact I.
Defined.

Lemma feature_groups_get_their_values_witness :
  exists target',
    parse_additional_car_features Fixture.offer_page ∅ = Ok target'
    /\ target' !! py "Безопасност" = Some (Some (py "ABS, ESP"))
    /\ target' !! py "Комфорт" = Some (Some (py "Климатик")).
Proof.
  destruct (feature_groups_get_their_values Fixture.offer_page ∅)
    as (target' & Hparse & Hvalues).
  - apply (bool_decide_unpack _). vm_compute. exact I.
  - apply (bool_decide_unpack _). vm_compute. exact I.
  - exists target'. split; [exact Hparse|].
    assert (Hlabels : exists l1 l2,
               find_all (by_name_class (py "label") (py "extra_cat")) Fixture.offer_page
               = [l1; l2]
               /\ text l1 = py "Безопасност" /\ text l2 = py "Комфорт"
               /\ join (py ", ") (feature_walk (sibling_tags (next_siblings l1)))
                  = py "ABS, ESP"
               /\ join (py ", ") (feature_walk (sibling_tags (next_siblings l2)))
                  = py "Климатик").
    { eexists _, _. split; [vm_compute; reflexivity|].
      repeat split; vm_compute; reflexivity. }
    destruct Hlabels as (l1 & l2 & Hall & Ht1 & Ht2 & Hv1 & Hv2).
    rewrite Hall in Hvalues. split.
    + rewrite <- Ht1, <- Hv1. apply Hvalues. left.
    + rewrite <- Ht2, <- Hv2. apply Hvalues. right. left.
Defined.

Lemma offer_without_title_price_or_views_raises_witness :
  fst (scrape_offer_data Cases.unpriced (py "Audi") (py "A4") (Fixture.offer_url "1")
         Fixture.start) = Raise AttributeError
  /\ frame (snd (scrape_offer_data Cases.unpriced (py "Audi") (py "A4") (Fixture.offer_url "1")
                   Fixture.start)) = frame Fixture.start.
Proof.
  destruct (find (by_name_class (py "ul") (py "dilarData")) Cases.unpriced_page)
    as [ul|] eqn:Hul; [|vm_compute in Hul; discriminate Hul].
  destruct (offer_without_title_price_or_views_raises Cases.unpriced (py "Audi") (py "A4")
              (Fixture.offer_url "1") Fixture.start
              (snd (get_page Cases.unpriced (Fixture.offer_url "1")
                      (add_log (Info_scraping_offer (Fixture.offer_url "1")) Fixture.start)))
              Cases.unpriced_page ul)
    as (Hraise & Hframe & _).
  - vm_compute. reflexivity.
  - exact Hul.
  - right. left. vm_compute. reflexivity.
  - split; [exact Hraise | exact Hframe].
Defined.

Lemma record_holds_the_arguments_and_the_fixed_nodes_witness :
  exists row,
    df_rows (frame (snd (scrape_offer_data Fixture.three_pages (py " Audi ") (py "A4 ")
                           (Fixture.offer_url "1") Fixture.start))) = [row]
    /\ (py "Марка", Str (py "Audi")) ∈ record_of columns row
    /\ (py "Модел", Str (py "A4")) ∈ record_of columns row.
Proof.
  set (done := scrape_offer_data Fixture.three_pages (py " Audi ") (py "A4 ")
                 (Fixture.offer_url "1") Fixture.start).
  set (row := hd [] (df_rows (frame (snd done)))).
  assert (Hrows : df_rows (frame (snd done)) = df_rows (frame Fixture.start) ++ [row])
    by (vm_compute; reflexivity).
  destruct (record_holds_the_arguments_and_the_fixed_nodes Fixture.three_pages
              (py " Audi ") (py "A4 ") (Fixture.offer_url "1") Fixture.start
              (snd (get_page Fixture.three_pages (Fixture.offer_url "1")
                      (add_log (Info_scraping_offer (Fixture.offer_url "1")) Fixture.start)))
              Fixture.offer_page row)
    as (h1 & price & views & _ & _ & _ & Hmake & Hmodel & _).
  - reflexivity.
  - vm_compute. reflexivity.
  - exact Hrows.
  - apply (bool_decide_unpack _). vm_compute. exact I.
  - exists row. split; [exact Hrows|]. split.
    + replace (py "Audi") with (strip (py " Audi ")) by (vm_compute; reflexivity). exact Hmake.
    + replace (py "A4") with (strip (py "A4 ")) by (vm_compute; reflexivity). exact Hmodel.
Defined.

Lemma main_details_are_paired_by_position_witness :
  parse_main_car_details (Some Cases.details_page) ∅ Fixture.start
  = (Ok (<[py "Цвят" := Some (py "Черен")]> (<[py "Мощност" := Some (py "150 к.с.")]> ∅)),
     Fixture.start).
Proof.
  destruct (find (by_name_class (py "ul") (py "dilarData")) Cases.details_page)
    as [ul|] eqn:Hul; [|vm_compute in Hul; discriminate Hul].
  destruct (main_details_are_paired_by_position Cases.details_page ul ∅ Fixture.start
              [(py "Мощност", py "150 к.с."); (py "Цвят", py "Черен")] [py "Евростандарт"])
    as (Hparsed & _).
  - exact Hul.
  - vm_compute in Hul. injection Hul as <-. vm_compute. reflexivity.
  - cbn [length]. lia.
  - exact Hparsed.
Defined.

Lemma only_offers_of_the_first_result_page_are_scraped_witness :
  exists r w' visited,
    scrape_model Fixture.three_pages 5 (py "Audi") (py "A4") Fixture.start = Some (r, w')
    /\ offers_scraped w' = offers_scraped Fixture.start ++ visited
    /\ exists skipped, map Fixture.offer_url ["1"; "2"] = visited ++ skipped.
Proof.
  destruct (only_offers_of_the_first_result_page_are_scraped Fixture.three_pages 4
              (py "Audi") (py "A4") (py "https://www.mobile.bg/results/p1") Fixture.start
              (snd (get_page Fixture.three_pages
                      (drop 6 (py "https://www.mobile.bg/results/p1"))
                      (add_log (Info_getting_offers (py "Audi") (py "A4"))
                         (add_log (Info_after_search (py "Audi") (py "A4")
                                     (py "https://www.mobile.bg/results/p1"))
                            (tick_navigation Fixture.start)))))
              (Fixture.results_page 1))
    as (r & w' & links & visited & skipped & Hmodel & Hlinks & Hsplit & Hlog & _).
  - reflexivity.
  - vm_compute. reflexivity.
  - exists r, w', visited. split; [exact Hmodel|]. split; [exact Hlog|].
    exists skipped. rewrite <- Hsplit.
    assert (Hl : hrefs (find_all is_offer_link (Fixture.results_page 1))
                 = Ok (map Fixture.offer_url ["1"; "2"])) by (vm_compute; reflexivity).
    congruence.
Defined.

Lemma worker_writes_only_its_partial_file_witness :
  exists r w',
    scrape_worker Fixture.three_pages 1 [(py "Audi", py "A4")] Fixture.start = Some (r, w')
    /\ forall path, path <> temp_partial Fixture.three_pages -> files w' !! path = None.
Proof.
  destruct (scrape_worker Fixture.three_pages 1 [(py "Audi", py "A4")] Fixture.start)
    as [[r w']|] eqn:Hworker; [|vm_compute in Hworker; discriminate Hworker].
  exists r, w'. split; [reflexivity|].
  destruct (worker_writes_only_its_partial_file _ _ _ _ _ _ Hworker) as [Hother _].
  intros path Hpath. rewrite (Hother path Hpath). reflexivity.
Defined.

Lemma result_page_without_page_links_stops_the_worker_witness :
  exists w3,
    scrape_combinations Cases.lone_site 1
      [(py "Audi", py "A4"); (py "Audi", py "A6")] Fixture.start
    = Some (Raise AttributeError, w3)
    /\ offers_scraped w3 = map Fixture.offer_url ["1"; "2"]
    /\ files w3 = ∅.
Proof.
  set (w2 := snd (get_page Cases.lone_site (drop 6 (py "https://www.mobile.bg/results/p1"))
                    (add_log (Info_getting_offers (py "Audi") (py "A4"))
                       (add_log (Info_after_search (py "Audi") (py "A4")
                                   (py "https://www.mobile.bg/results/p1"))
                          (tick_navigation Fixture.start))))).
  set (w3 := snd (scrape_offers Cases.lone_site (py "Audi") (py "A4")
                    (map Fixture.offer_url ["1"; "2"]) w2)).
  destruct (result_page_without_page_links_stops_the_worker Cases.lone_site 0
              (py "Audi") (py "A4") (py "https://www.mobile.bg/results/p1")
              [(py "Audi", py "A6")] Fixture.start w2 w3 Cases.lone_result_page
              (map Fixture.offer_url ["1"; "2"]))
    as (Hstop & Hlog & Hfiles).
  - reflexivity.
  - vm_compute. reflexivity.
  - vm_compute. reflexivity.
  - vm_compute. reflexivity.
  - vm_compute. reflexivity.
  - exists w3. split; [exact Hstop|]. split; [exact Hlog | exact Hfiles].
Defined.

Lemma combinations_are_enumerated_make_by_make_witness :
  get_all_models Cases.model_options [py "Audi"; py "BMW"]
  = Ok [(py "Audi", py "A4"); (py "Audi", py "A6"); (py "BMW", py "X5")].
Proof.
  rewrite (combinations_are_enumerated_make_by_make Cases.model_options
             [py "Audi"; py "BMW"] [[py "-"; py " A4"; py "A6 "]; [py "-"; py "X5"]]).
  - vm_compute. reflexivity.
  - reflexivity.
  - intros i make options Hm Ho.
    destruct i as [|[|i]]; cbn in Hm, Ho; try discriminate Hm;
      injection Hm as <-; injection Ho as <-; reflexivity.
Defined.

Lemma a_failing_make_ends_the_enumeration_witness :
  get_all_models Cases.model_options [py "Audi"; py "Fiat"; py "BMW"] = Raise IndexError.
Proof.
  apply (a_failing_make_ends_the_enumeration Cases.model_options
           [py "Audi"; py "Fiat"; py "BMW"] 1 (py "Fiat") IndexError).
  - reflexivity.
  - reflexivity.
  - intros i make' Hi Hm. destruct i as [|i]; [|lia].
    cbn in Hm. injection Hm as <-. eexists. reflexivity.
Defined.

Lemma partial_results_are_put_together_witness :
  exists fs',
    merge_partial_results Cases.read_csv (py "2024-01-31")
      [py "partial-1.csv"; py "partial-2.csv"] Cases.temp_files = (Ok tt, fs')
    /\ fs' !! OUTPUT_FILE_PATH (py "2024-01-31")
       = Some [Header [py "a"; py "b"]; Row [Str (py "1"); PyNone];
               Row [Str (py "2"); PyNone]; Row [Str (py "3"); PyNone]]
    /\ fs' !! temp_file (py "partial-1.csv") = None.
Proof.
  destruct (partial_results_are_put_together Cases.read_csv (py "2024-01-31")
              [py "partial-1.csv"; py "partial-2.csv"]
              [Frame [py "a"; py "b"] [[Str (py "1"); PyNone]];
               Frame [py "a"; py "b"] [[Str (py "2"); PyNone]; [Str (py "3"); PyNone]]]
              Cases.temp_files)
    as (fs' & Hmerge & Hgone & _ & Hout).
  - apply (bool_decide_unpack _). vm_compute. exact I.
  - reflexivity.
  - intros i name df Hn Hd.
    destruct i as [|[|i]]; cbn in Hn, Hd; try discriminate Hn;
      injection Hn as <-; injection Hd as <-; eexists; split; vm_compute; reflexivity.
  - exists fs'. split; [exact Hmerge|]. split.
    + rewrite Hout. vm_compute. reflexivity.
    + apply Hgone. left.
Defined.

Lemma region_and_city_are_the_first_two_parts_witness :
  exists row,
    fst (scrape_offer_data Fixture.three_pages (py "Audi") (py "A4") (Fixture.offer_url "1")
           Fixture.start) = Ok tt
    /\ (py "Област [Извън страната]", Str (py "обл. София")) ∈ record_of columns row
    /\ (py "Населено място [Държава]", Str (py "гр. София")) ∈ record_of columns row.
Proof.
  edestruct (region_and_city_are_the_first_two_parts Fixture.three_pages (py "Audi") (py "A4")
               (Fixture.offer_url "1") Fixture.start
               (snd (get_page Fixture.three_pages (Fixture.offer_url "1")
                       (add_log (Info_scraping_offer (Fixture.offer_url "1")) Fixture.start)))
               Fixture.offer_page)
    as (row & region & city & Hok & _ & Hregion & Hcity & Hcase).
  - reflexivity.
  - vm_compute. reflexivity.
  - vm_compute. reflexivity.
  - vm_compute. reflexivity.
  - vm_compute. reflexivity.
  - vm_compute. reflexivity.
  - apply (bool_decide_unpack _). vm_compute. exact I.
  - destruct (find (by_name_class (py "div") (py "adress")) Fixture.offer_page)
      as [adress|] eqn:Hadress; [|vm_compute in Hadress; discriminate Hadress].
    vm_compute in Hadress. injection Hadress as <-.
    destruct Hcase as [_ Hparts].
    destruct (Hparts (py "обл. София") (py " гр. София") []) as [-> ->].
    + vm_compute. reflexivity.
    + apply (bool_decide_unpack _). vm_compute. exact I.
    + apply (bool_decide_unpack _). vm_compute. exact I.
    + left. reflexivity.
    + exists row. split; [exact Hok|]. split.
      * replace (py "обл. София") with (strip (py "обл. София")) by (vm_compute; reflexivity).
        exact Hregion.
      * replace (py "гр. София") with (strip (py " гр. София")) by (vm_compute; reflexivity).
        exact Hcity.
Defined.
